(** * Telegram sticker-pack downloader: a shallow embedding of [main.py]

    The program is one Python module.  Its pure helpers
    ([sanitize_filename], [extract_pack_name]) are embedded as Rocq
    functions on Python strings; the orchestrating function
    [download_sticker_pack] is embedded as a computation in a small
    exception-and-trace monad over an explicit description of everything
    the run observes from outside (network answers, file-system
    answers) and of the library routines it calls (gzip, json, PIL,
    Unicode case mapping).

    A Python [str] is a sequence of Unicode code points, so it is
    modelled as [list N]; [bytes] is [list byte]. *)

From Stdlib Require Import List NArith ZArith Arith Lia Bool.
From Stdlib Require Import Strings.String Strings.Ascii Strings.Byte.
From Stdlib Require Import Numbers.DecimalNat.
From Stdlib Require Import Floats.SpecFloat.
Import ListNotations.

Set Implicit Arguments.
Local Open Scope list_scope.

(** ** Python strings *)

Module Py.

Definition char := N.
Definition str := list char.
Definition bytes := list byte.

(** A source literal (always ASCII in [main.py]) as a Python string. *)
Definition lit (s : string) : str :=
  List.map N_of_ascii (list_ascii_of_string s).
Arguments lit s%_string.

(** A one-character literal. *)
Definition chr (a : ascii) : char := N_of_ascii a.
Arguments chr a%_char.

Definition str_eqb (a b : str) : bool :=
  if list_eq_dec N.eq_dec a b then true else false.

Definition bytes_eqb (a b : bytes) : bool :=
  if list_eq_dec Byte.byte_eq_dec a b then true else false.

(** [c in s] for a character [c]. *)
Definition has (c : char) (s : str) : bool := existsb (N.eqb c) s.

(** [x in l] for a list of strings [l]. *)
Definition str_in (x : str) (l : list str) : bool := existsb (str_eqb x) l.

(** [s.replace(a, b)] for single characters [a] and [b]. *)
Definition replace_char (a b : char) (s : str) : str :=
  List.map (fun c => if N.eqb c a then b else c) s.

(** [s.replace(a, "")] for a single character [a]. *)
Definition remove_char (a : char) (s : str) : str :=
  List.filter (fun c => negb (N.eqb c a)) s.

Fixpoint dropwhile (p : char -> bool) (s : str) : str :=
  match s with
  | [] => []
  | c :: t => if p c then dropwhile p t else s
  end.

Definition lstrip_by (p : char -> bool) (s : str) : str := dropwhile p s.
Definition rstrip_by (p : char -> bool) (s : str) : str :=
  List.rev (dropwhile p (List.rev s)).
Definition strip_by (p : char -> bool) (s : str) : str :=
  rstrip_by p (lstrip_by p s).

(** The code points for which [str.isspace] holds; [str.strip()]
    without argument removes exactly these from both ends. *)
Definition isspace (c : char) : bool :=
  ((9 <=? c) && (c <=? 13) || (28 <=? c) && (c <=? 32)
   || (c =? 133) || (c =? 160) || (c =? 5760)
   || (8192 <=? c) && (c <=? 8202)
   || (c =? 8232) || (c =? 8233) || (c =? 8239) || (c =? 8287)
   || (c =? 12288))%N.

Definition strip (s : str) : str := strip_by isspace s.

(** [s.split(sep)] for a single character [sep]: never the empty list. *)
Fixpoint split (sep : char) (s : str) : list str :=
  match s with
  | [] => [[]]
  | c :: t =>
      if N.eqb c sep then [] :: split sep t
      else match split sep t with
           | [] => [[c]]
           | w :: ws => (c :: w) :: ws
           end
  end.

(** [s.split(sep, 1)]: the text before and after the first [sep]. *)
Fixpoint split1 (sep : char) (s : str) : str * str :=
  match s with
  | [] => ([], [])
  | c :: t =>
      if N.eqb c sep then ([], t)
      else let '(a, b) := split1 sep t in (c :: a, b)
  end.

(** [l[-1]] on a non-empty list; [d] stands for the [IndexError] case,
    which [split] never produces. *)
Definition last_item (l : list str) (d : str) : str := List.last l d.

Fixpoint startswith (p s : str) : bool :=
  match p, s with
  | [], _ => true
  | _ :: _, [] => false
  | a :: p', b :: s' => N.eqb a b && startswith p' s'
  end.

Definition endswith (suffix s : str) : bool :=
  startswith (List.rev suffix) (List.rev s).

(** Truth value of a string: non-empty. *)
Definition nonempty {A} (s : list A) : bool :=
  match s with [] => false | _ :: _ => true end.

(** ASCII-only helpers used by [urllib.parse]. *)
Definition is_ascii_alpha (c : char) : bool :=
  ((65 <=? c) && (c <=? 90) || (97 <=? c) && (c <=? 122))%N.
Definition is_ascii_digit (c : char) : bool :=
  ((48 <=? c) && (c <=? 57))%N.
Definition isascii (s : str) : bool := forallb (fun c => (c <? 128)%N) s.
Definition ascii_lower_char (c : char) : char :=
  if ((65 <=? c) && (c <=? 90))%N then (c + 32)%N else c.
Definition ascii_upper_char (c : char) : char :=
  if ((97 <=? c) && (c <=? 122))%N then (c - 32)%N else c.

(** [str(n)] for a natural number: its decimal digits. *)
Fixpoint uint_digits (d : Decimal.uint) : str :=
  match d with
  | Decimal.Nil => []
  | Decimal.D0 d => 48%N :: uint_digits d
  | Decimal.D1 d => 49%N :: uint_digits d
  | Decimal.D2 d => 50%N :: uint_digits d
  | Decimal.D3 d => 51%N :: uint_digits d
  | Decimal.D4 d => 52%N :: uint_digits d
  | Decimal.D5 d => 53%N :: uint_digits d
  | Decimal.D6 d => 54%N :: uint_digits d
  | Decimal.D7 d => 55%N :: uint_digits d
  | Decimal.D8 d => 56%N :: uint_digits d
  | Decimal.D9 d => 57%N :: uint_digits d
  end.

Definition str_of_nat (n : nat) : str := uint_digits (Nat.to_uint n).

(** The format specification [{n:03d}]: decimal, zero-padded on the
    left to a width of at least 3. *)
Definition format_03d (n : nat) : str :=
  let d := str_of_nat n in
  repeat 48%N (3 - List.length d) ++ d.

(** [posixpath.join(a, b)] for two components. *)
Definition path_join (a b : str) : str :=
  if startswith (lit "/") b then b
  else if negb (nonempty a) || endswith (lit "/") a then a ++ b
  else a ++ lit "/" ++ b.

End Py.

Import Py.

(** ** [sanitize_filename] (main.py 13-17) *)

(** The character class of the regular expression: the nine characters
    less-than, greater-than, colon, double quote (code point 34), slash,
    backslash, vertical bar, question mark and asterisk. *)
Definition DQUOTE : char := 34%N.

Definition illegal_chars : str := lit "<>:" ++ DQUOTE :: lit "/\|?*".

Definition illegal_char (c : char) : bool := has c illegal_chars.

Definition LF : char := 10%N.
Definition CR : char := 13%N.
Definition SPACE : char := 32%N.

Definition sanitize_filename (name : str) : str :=
  let name := List.filter (fun c => negb (illegal_char c)) name in
  let name := replace_char CR SPACE (replace_char LF SPACE name) in
  firstn 50 (strip name).


(** ** Python values and exceptions *)

(** What [json.loads] and [response.json()] produce.  Python's [None]
    is [JNull]; a [dict] keeps its insertion order, so it is an
    association list (its keys are pairwise distinct when it comes from
    the parser; lookups below take the first binding). *)
#[warnings="-register-all"]
Inductive json : Type :=
| JNull
| JBool (b : bool)
| JInt (z : Z)
| JFloat (f : spec_float)
| JStr (s : str)
| JList (l : list json)
| JDict (kvs : list (str * json)).

(** The exceptions the run can meet.  All of them derive from
    [Exception]; [External] is anything raised inside a library or the
    operating system ([requests], [open], [os.makedirs], ...). *)
Inductive exn : Type :=
| KeyError (key : str)
| TypeError
| AttributeError
| ValueError
| External (name : str) (message : str).

Inductive res (A : Type) : Type :=
| Ok (a : A)
| Raise (e : exn).
Arguments Ok {A} a.
Arguments Raise {A} e.

(** Truth value of a Python object, as tested by [if x:] and [not x]. *)
Definition truthy (v : json) : bool :=
  match v with
  | JNull => false
  | JBool b => b
  | JInt z => negb (Z.eqb z 0)
  | JFloat (S754_zero _) => false
  | JFloat _ => true
  | JStr s => nonempty s
  | JList l => nonempty l
  | JDict kvs => nonempty kvs
  end.

Fixpoint assoc (k : str) (kvs : list (str * json)) : option json :=
  match kvs with
  | [] => None
  | (k', v) :: rest => if str_eqb k k' then Some v else assoc k rest
  end.

(** [o.get(k, default)]: only a [dict] has the method. *)
Definition py_get (o : json) (k : str) (default : json) : res json :=
  match o with
  | JDict kvs => Ok (match assoc k kvs with Some v => v | None => default end)
  | _ => Raise AttributeError
  end.

(** [o[k]] for a string key [k]. *)
Definition py_getitem (o : json) (k : str) : res json :=
  match o with
  | JDict kvs =>
      match assoc k kvs with Some v => Ok v | None => Raise (KeyError k) end
  | _ => Raise TypeError
  end.

(** [k in o], used on a value already known to be a [dict]. *)
Definition py_contains (o : json) (k : str) : bool :=
  match o with
  | JDict kvs => match assoc k kvs with Some _ => true | None => false end
  | _ => false
  end.

(** [len(o)]. *)
Definition py_len (o : json) : res nat :=
  match o with
  | JList l => Ok (List.length l)
  | JDict kvs => Ok (List.length kvs)
  | JStr s => Ok (List.length s)
  | _ => Raise TypeError
  end.

(** The items [for x in o] visits: the elements of a list, the keys of
    a dict, the characters of a string. *)
Definition py_iter (o : json) : res (list json) :=
  match o with
  | JList l => Ok l
  | JDict kvs => Ok (List.map (fun kv => JStr (fst kv)) kvs)
  | JStr s => Ok (List.map (fun c => JStr [c]) s)
  | _ => Raise TypeError
  end.

(** ** The library routines the program calls

    Their code is not part of the repository; the embedding is
    parametric in them.  A routine that can raise returns a [res]. *)
Class Library : Type := {
  (** [s.upper()] and [s.lower()] with Unicode case mapping. *)
  str_upper : str -> str;
  str_lower : str -> str;
  (** [str(v)] of a value that is not itself a string, as an f-string
      renders it. *)
  repr_value : json -> str;
  (** [str(e)] of an exception. *)
  exn_message : exn -> str;
  (** [urllib.parse._check_bracketed_netloc] and the NFKC part of
      [urllib.parse._checknetloc]: [true] when they do not raise. *)
  check_bracketed_netloc : str -> bool;
  checknetloc_nfkc : str -> bool;
  (** [gzip.decompress], [json.loads], [json.dumps(_, indent=2)] and
      [s.encode('utf-8')]. *)
  gzip_decompress : bytes -> res bytes;
  json_loads : bytes -> res json;
  json_dumps_indent2 : json -> str;
  utf8_encode : str -> res bytes;
  (** PIL: [Image.open(io.BytesIO(b))], [image.convert('RGB')] and
      [image.save(output, format=f)] followed by [output.getvalue()]. *)
  image : Type;
  image_open : bytes -> res image;
  image_convert_rgb : image -> res image;
  image_save : image -> str -> res bytes
}.

(** [f"{v}"]: a string is rendered as itself. *)
Definition py_str {L : Library} (v : json) : str :=
  match v with
  | JStr s => s
  | _ => repr_value v
  end.

(** ** [urllib.parse.urlparse] (CPython 3.11), path component *)

Module urllib.

(** [_WHATWG_C0_CONTROL_OR_SPACE]: code points 0 to 32. *)
Definition c0_control_or_space (c : char) : bool := (c <=? 32)%N.

(** [_UNSAFE_URL_BYTES_TO_REMOVE]: tab, CR and LF are deleted anywhere. *)
Definition remove_unsafe (url : str) : str :=
  remove_char LF (remove_char CR (remove_char 9%N url)).

Definition scheme_chars : str :=
  lit "abcdefghijklmnopqrstuvwxyzABCDEFGHIJKLMNOPQRSTUVWXYZ0123456789+-.".

Definition uses_params : list str :=
  [lit ""; lit "ftp"; lit "hdl"; lit "prospero"; lit "http"; lit "imap";
   lit "https"; lit "shttp"; lit "rtsp"; lit "rtspu"; lit "sip"; lit "sips";
   lit "mms"; lit "sftp"; lit "tel"].

(** The scheme test of [urlsplit]: a colon not in first position, a
    first character that is an ASCII letter, and only scheme characters
    before the colon.  Returns the lower-cased scheme and the rest. *)
Definition split_scheme (url : str) : str * str :=
  if has (chr ":") url then
    let '(pre, post) := split1 (chr ":") url in
    match pre with
    | c0 :: _ =>
        if is_ascii_alpha c0 && forallb (fun c => has c scheme_chars) pre
        then (List.map ascii_lower_char pre, post)
        else ([], url)
    | [] => ([], url)
    end
  else ([], url).

(** The text before the first character satisfying [p], and the text
    from that character on. *)
Fixpoint break_at (p : char -> bool) (s : str) : str * str :=
  match s with
  | [] => ([], [])
  | c :: t =>
      if p c then ([], s)
      else let '(a, b) := break_at p t in (c :: a, b)
  end.

(** [_splitnetloc(url, 2)] on a [url] that starts with two slashes. *)
Definition splitnetloc2 (url : str) : str * str :=
  break_at (fun c => has c (lit "/?#")) (skipn 2 url).

(** The three checks on the network location; [false] is [ValueError]. *)
Definition netloc_ok {L : Library} (netloc : str) : bool :=
  let lb := has (chr "[") netloc in
  let rb := has (chr "]") netloc in
  negb ((lb && negb rb) || (rb && negb lb))
  && (if lb && rb then check_bracketed_netloc netloc else true)
  && (if negb (nonempty netloc) || isascii netloc then true
      else checknetloc_nfkc netloc).

Record SplitResult : Type := {
  scheme : str; netloc : str; path : str; query : str; fragment : str
}.

Definition urlsplit {L : Library} (url : str) : res SplitResult :=
  let url := lstrip_by c0_control_or_space url in
  let url := remove_unsafe url in
  let '(sch, url) := split_scheme url in
  let '(nl, url) :=
    if startswith (lit "//") url then splitnetloc2 url else ([], url) in
  let '(url, frag) :=
    if has (chr "#") url then split1 (chr "#") url else (url, []) in
  let '(url, qry) :=
    if has (chr "?") url then split1 (chr "?") url else (url, []) in
  if netloc_ok nl
  then Ok {| scheme := sch; netloc := nl; path := url;
             query := qry; fragment := frag |}
  else Raise ValueError.

(** The text after the last [sep] of [s], if [s] has one. *)
Fixpoint after_last (sep : char) (s : str) : option str :=
  match s with
  | [] => None
  | c :: t =>
      match after_last sep t with
      | Some r => Some r
      | None => if N.eqb c sep then Some t else None
      end
  end.

(** [_splitparams(url)[0]], called only on a [url] with a semicolon: the
    url cut at the first semicolon that follows its last slash (the url
    itself if there is none), or at its first semicolon when it has no
    slash. *)
Definition splitparams (url : str) : str :=
  match after_last (chr "/") url with
  | Some tail =>
      if has (chr ";") tail
      then firstn (List.length url - List.length tail) url
           ++ fst (split1 (chr ";") tail)
      else url
  | None => fst (split1 (chr ";") url)
  end.

(** [urlparse(url).path]. *)
Definition urlparse_path {L : Library} (url : str) : res str :=
  match urlsplit url with
  | Ok r =>
      if str_in (scheme r) uses_params && has (chr ";") (path r)
      then Ok (splitparams (path r))
      else Ok (path r)
  | Raise e => Raise e
  end.

End urllib.

(** ** [extract_pack_name] (main.py 19-25) *)

Definition MARKER : str := lit "addstickers".

(** [parsed.path.split('/')]. *)
Definition path_parts {L : Library} (url : str) : res (list str) :=
  match urllib.urlparse_path url with
  | Ok p => Ok (split (chr "/") p)
  | Raise e => Raise e
  end.

(** [None] is the function's [return None]. *)
Definition extract_pack_name {L : Library} (url : str) : res (option str) :=
  match path_parts url with
  | Ok parts =>
      if str_in MARKER parts
      then Ok (Some (last_item parts []))
      else Ok None
  | Raise e => Raise e
  end.

(** ** Effects: a trace of outputs, and exceptions *)

(** What a run does to the outside: lines printed (by [print] and by
    [tqdm.write]), calls of [os.makedirs] and files written; a
    file-system operation is recorded when it completes.  [MakeDirs dir]
    is one completed call [os.makedirs(dir, exist_ok=True)]: it leaves
    [dir] in place, having created it and each of its missing parents
    if they were not there, so one event may stand for several new
    directories, or for none.  Requests sent to the network are
    observations and are not recorded, nor is the progress bar that
    [tqdm] draws on standard error. *)
Inductive event : Type :=
| Print (text : str)
| TqdmWrite (text : str)
| MakeDirs (dir : str)
| WriteText (file : str) (text : str)
| WriteBytes (file : str) (data : bytes).

(** A computation: the events it emitted, then its value or the
    exception that stopped it. *)
Definition M (A : Type) : Type := list event * res A.

Definition ret {A} (a : A) : M A := ([], Ok a).
Definition raise {A} (e : exn) : M A := ([], Raise e).
Definition emit (ev : event) : M unit := ([ev], Ok tt).
Definition lift {A} (r : res A) : M A := ([], r).

Definition bind {A B} (m : M A) (k : A -> M B) : M B :=
  match m with
  | (t, Ok a) => let '(t', r) := k a in (t ++ t', r)
  | (t, Raise e) => (t, Raise e)
  end.

Declare Scope monad_scope.
Delimit Scope monad_scope with monad.
Notation "x <- m ;; k" := (bind m (fun x => k))
  (at level 61, m at next level, right associativity) : monad_scope.
Notation "m ;;; k" := (bind m (fun _ => k))
  (at level 61, right associativity) : monad_scope.
Local Open Scope monad_scope.

(** [try: body  except Exception as e: handler(e)]. *)
Definition try_except {A} (body : M A) (handler : exn -> M A) : M A :=
  match body with
  | (t, Ok a) => (t, Ok a)
  | (t, Raise e) => let '(t', r) := handler e in (t ++ t', r)
  end.

(** ** The converters (main.py 27-48) *)

(** [convert_tgs_to_lottie]: the parsed document, or [None] (which is
    [JNull]) after printing a diagnostic. *)
Definition convert_tgs_to_lottie {L : Library} (tgs_data : bytes) : M json :=
  try_except
    (json_data <- lift (gzip_decompress tgs_data) ;;
     lift (json_loads json_data))
    (fun e =>
       emit (Print (lit "Error converting TGS to Lottie: " ++ exn_message e)) ;;;
       ret JNull).

(** [convert_webp_to_format]: the re-encoded bytes, or [None]. *)
Definition convert_webp_to_format {L : Library}
    (webp_data : bytes) (format_type : str) : M (option bytes) :=
  try_except
    (img <- lift (image_open webp_data) ;;
     img <- (if str_eqb format_type (lit "JPEG")
             then lift (image_convert_rgb img) else ret img) ;;
     out <- lift (image_save img format_type) ;;
     ret (Some out))
    (fun e =>
       emit (Print (lit "Error converting WebP to " ++ format_type
                    ++ lit ": " ++ exn_message e)) ;;;
       ret None).

(** ** The outside world of one run *)

(** An HTTP response: [status_code], [content], and what [.json()]
    gives. *)
Record response : Type := {
  status_code : Z;
  content : bytes;
  json_body : res json
}.

(** Everything a run of [download_sticker_pack] observes.  [when] is 0
    for the request made before the loop and [i+1] for the requests and
    the write made while sticker number [i+1] is processed, so the
    same request may be answered differently at different times.  The
    file-system operations return the exception they raise, if any. *)
Record World : Type := {
  getenv_token : option str;
  requests_get : nat -> str -> list (str * json) -> res response;
  os_makedirs : str -> option exn;
  write_text_file : str -> str -> option exn;
  write_binary_file : nat -> str -> bytes -> option exn
}.

Definition do_makedirs (W : World) (dir : str) : M unit :=
  match os_makedirs W dir with
  | None => emit (MakeDirs dir)
  | Some e => raise e
  end.

Definition do_write_text (W : World) (file text : str) : M unit :=
  match write_text_file W file text with
  | None => emit (WriteText file text)
  | Some e => raise e
  end.

Definition do_write_bytes (W : World) (when : nat) (file : str) (data : bytes)
  : M unit :=
  match write_binary_file W when file data with
  | None => emit (WriteBytes file data)
  | Some e => raise e
  end.

(** [sanitize_filename(v)] on a value: [re.sub] accepts only a string. *)
Definition sanitize_value (v : json) : res str :=
  match v with
  | JStr s => Ok (sanitize_filename s)
  | _ => Raise TypeError
  end.

(** [v.endswith(suffix)]: only a string has the method. *)
Definition py_endswith (v : json) (suffix : str) : res bool :=
  match v with
  | JStr s => Ok (endswith suffix s)
  | _ => Raise AttributeError
  end.

(** ** [download_sticker_pack] (main.py 50-177) *)

Definition valid_formats : list str := [lit "WEBP"; lit "PNG"; lit "JPEG"].

Definition API : str := lit "https://api.telegram.org/".

(** Lines 137-163: the bytes to write and their extension, from the
    downloaded payload. *)
Definition convert_sticker {L : Library}
    (convert_tgs : bool) (static_format : str)
    (is_animated : bool) (data : bytes) : M (str * bytes) :=
  if is_animated then
    if convert_tgs then
      lottie_data <- convert_tgs_to_lottie data ;;
      if truthy lottie_data then
        encoded <- lift (utf8_encode (json_dumps_indent2 lottie_data)) ;;
        ret (lit ".json", encoded)
      else ret (lit ".tgs", data)
    else ret (lit ".tgs", data)
  else
    if negb (str_eqb (str_upper static_format) (lit "WEBP")) then
      converted_data <- convert_webp_to_format data static_format ;;
      match converted_data with
      | Some c =>
          if nonempty c then ret (lit "." ++ str_lower static_format, c)
          else ret (lit ".webp", data)
      | None => ret (lit ".webp", data)
      end
    else ret (lit ".webp", data).

(** Lines 166-167: the file name of sticker number [i+1]. *)
Definition emoji_or_sticker (emoji : json) : json :=
  if truthy emoji then emoji else JStr (lit "sticker").

Definition sticker_filename (i : nat) (name extension : str) : str :=
  format_03d (i + 1) ++ lit "_" ++ name ++ extension.

Definition getFile_url (TOKEN : str) : str :=
  API ++ lit "bot" ++ TOKEN ++ lit "/getFile".

Definition download_url {L : Library} (TOKEN : str) (file_path : json) : str :=
  API ++ lit "file/bot" ++ TOKEN ++ lit "/" ++ py_str file_path.

(** Lines 115-134: the two requests for the sticker at 0-based position
    [i].  [None] is a [continue]; otherwise the emoji, the resolved file
    path and the downloaded bytes. *)
Definition fetch_sticker {L : Library} (W : World) (TOKEN : str)
    (i : nat) (sticker : json) : M (option (json * json * bytes)) :=
  file_id <- lift (py_getitem sticker (lit "file_id")) ;;
  emoji <- lift (py_get sticker (lit "emoji") (JStr [])) ;;
  r <- lift (requests_get W (S i) (getFile_url TOKEN)
               [(lit "file_id", file_id)]) ;;
  file_data <- lift (json_body r) ;;
  ok <- lift (py_get file_data (lit "ok") JNull) ;;
  if negb (truthy ok) then
    emit (TqdmWrite (lit "Failed to get file path for sticker "
                     ++ str_of_nat (i + 1))) ;;;
    ret None
  else
    result <- lift (py_getitem file_data (lit "result")) ;;
    file_path <- lift (py_getitem result (lit "file_path")) ;;
    sticker_data <- lift (requests_get W (S i) (download_url TOKEN file_path)
                            []) ;;
    if negb (Z.eqb (status_code sticker_data) 200) then
      emit (TqdmWrite (lit "Failed to download sticker "
                       ++ str_of_nat (i + 1))) ;;;
      ret None
    else ret (Some (emoji, file_path, content sticker_data)).

(** Lines 165-172: compose the file name and write the file. *)
Definition save_sticker (W : World) (pack_dir : str) (i : nat)
    (emoji : json) (extension : str) (sticker_content : bytes) : M unit :=
  name <- lift (sanitize_value (emoji_or_sticker emoji)) ;;
  let filename := sticker_filename i name extension in
  let output_path := path_join pack_dir filename in
  do_write_bytes W (S i) output_path sticker_content.

(** Lines 115-172: the body of the loop for the sticker at 0-based
    position [i]. *)
Definition process_sticker {L : Library} (W : World) (TOKEN : str)
    (convert_tgs : bool) (static_format pack_dir : str)
    (i : nat) (sticker : json) : M unit :=
  fetched <- fetch_sticker W TOKEN i sticker ;;
  match fetched with
  | None => ret tt
  | Some (emoji, file_path, data) =>
      is_animated <- lift (py_endswith file_path (lit ".tgs")) ;;
      out <- convert_sticker convert_tgs static_format is_animated data ;;
      save_sticker W pack_dir i emoji (fst out) (snd out)
  end.

(** Line 114: [for i, sticker in enumerate(stickers)], from position
    [i] on.  An exception leaves the loop. *)
Fixpoint iterate_stickers {L : Library} (W : World) (TOKEN : str)
    (convert_tgs : bool) (static_format pack_dir : str)
    (i : nat) (stickers : list json) : M unit :=
  match stickers with
  | [] => ret tt
  | sticker :: rest =>
      process_sticker W TOKEN convert_tgs static_format pack_dir i sticker ;;;
      iterate_stickers W TOKEN convert_tgs static_format pack_dir (S i) rest
  end.

(** Lines 105-111: the text of [pack_info.txt]. *)
Definition manifest_text {L : Library} (pack_info pack_title : json)
    (count : nat) (pack_url : str) (convert_tgs : bool) (static_format : str)
  : str :=
  lit "Pack Name: " ++ py_str pack_title ++ [LF]
  ++ lit "Sticker Count: " ++ str_of_nat count ++ [LF]
  ++ lit "Original URL: " ++ pack_url ++ [LF]
  ++ (if py_contains pack_info (lit "author")
      then match py_getitem pack_info (lit "author") with
           | Ok a => lit "Author: " ++ py_str a ++ [LF]
           | Raise _ => []
           end
      else [])
  ++ lit "Static stickers format: " ++ static_format ++ [LF]
  ++ lit "Animated stickers saved as: "
  ++ (if convert_tgs then lit "Lottie JSON" else lit "TGS") ++ [LF].

Definition getStickerSet_url (TOKEN : str) : str :=
  API ++ lit "bot" ++ TOKEN ++ lit "/getStickerSet".

(** Lines 96-97: the directory of the pack, from the sanitized title. *)
Definition pack_dir_of (base_dir title pack_name : str) : str :=
  let pack_dir_name := title ++ lit " (" ++ pack_name ++ lit ")" in
  path_join base_dir pack_dir_name.

(** Lines 81-174: the body of the [try] statement. *)
Definition try_body {L : Library} (W : World) (TOKEN pack_name : str)
    (pack_url : str) (convert_tgs : bool) (static_format base_dir : str)
  : M unit :=
  r <- lift (requests_get W 0 (getStickerSet_url TOKEN)
               [(lit "name", JStr pack_name)]) ;;
  data <- lift (json_body r) ;;
  ok <- lift (py_get data (lit "ok") JNull) ;;
  if negb (truthy ok) then
    description <-
      lift (py_get data (lit "description") (JStr (lit "Unknown error"))) ;;
    emit (Print (lit "Error: " ++ py_str description))
  else
    pack_info <- lift (py_getitem data (lit "result")) ;;
    stickers <- lift (py_getitem pack_info (lit "stickers")) ;;
    pack_title <- lift (py_get pack_info (lit "title") (JStr pack_name)) ;;
    title <- lift (sanitize_value pack_title) ;;
    let pack_dir := pack_dir_of base_dir title pack_name in
    do_makedirs W pack_dir ;;;
    count <- lift (py_len stickers) ;;
    emit (Print (LF :: lit "Found " ++ str_of_nat count
                 ++ lit " stickers in pack: " ++ py_str pack_title)) ;;;
    let pack_info_path := path_join pack_dir (lit "pack_info.txt") in
    do_write_text W pack_info_path
      (manifest_text pack_info pack_title count pack_url convert_tgs
         static_format) ;;;
    items <- lift (py_iter stickers) ;;
    iterate_stickers W TOKEN convert_tgs static_format pack_dir 0 items ;;;
    emit (Print (LF :: lit "Download complete! Stickers saved in: "
                 ++ pack_dir)).

(** How a call ends: it returns, it leaves through [sys.exit(code)], or
    an exception escapes it. *)
Inductive outcome : Type :=
| Returned
| SysExit (code : Z)
| Uncaught (e : exn).

(** Lines 74-78: the pack name, when [extract_pack_name] gives one that
    is not rejected by [if not pack_name]. *)
Definition checked_pack_name {L : Library} (pack_url : str)
  : res (option str) :=
  match extract_pack_name pack_url with
  | Ok (Some pack_name) =>
      if nonempty pack_name then Ok (Some pack_name) else Ok None
  | Ok None => Ok None
  | Raise e => Raise e
  end.

Definition download_sticker_pack {L : Library} (W : World)
    (pack_url : str) (convert_tgs : bool) (static_format base_dir : str)
  : list event * outcome :=
  match getenv_token W with
  | Some ((_ :: _) as TOKEN) =>
      if negb (str_in (str_upper static_format) valid_formats) then
        ([Print (lit "Error: Invalid static format. Must be one of: "
                 ++ lit "WEBP, PNG, JPEG")],
         SysExit 1)
      else
        match checked_pack_name pack_url with
        | Raise e => ([], Uncaught e)
        | Ok None =>
            ([Print (lit "Error: Invalid sticker pack URL");
              Print (lit "URL should be in format: "
                     ++ lit "https://t.me/addstickers/PackName")],
             SysExit 1)
        | Ok (Some pack_name) =>
            let '(t, _) :=
              try_except
                (try_body W TOKEN pack_name pack_url convert_tgs
                   static_format base_dir)
                (fun e => emit (Print (lit "Error: " ++ exn_message e))) in
            (t, Returned)
        end
  | _ =>
      ([Print (lit "Error: TELEGRAM_BOT_TOKEN not found in .env file");
        Print (lit "Please create a .env file with your bot token. "
               ++ lit "See README.md for instructions.")],
       SysExit 1)
  end.

(** ** [main] (main.py 179-205) *)

Fixpoint index_of (x : str) (l : list str) : nat :=
  match l with
  | [] => 0
  | y :: rest => if str_eqb x y then 0 else S (index_of x rest)
  end.

Definition usage : list event :=
  List.map Print
    [lit "Usage: python sticker_downloader.py <sticker_pack_url> [--convert-tgs] [--static-format FORMAT]";
     LF :: lit "Options:";
     lit "  --convert-tgs              Convert animated stickers to Lottie JSON format";
     lit "  --static-format FORMAT     Format for static stickers (WEBP, PNG, or JPEG) [default: WEBP]";
     LF :: lit "Examples:";
     lit "  python sticker_downloader.py https://t.me/addstickers/JollySanta";
     lit "  python sticker_downloader.py https://t.me/addstickers/JollySanta --convert-tgs";
     lit "  python sticker_downloader.py https://t.me/addstickers/JollySanta --static-format PNG";
     lit "  python sticker_downloader.py https://t.me/addstickers/JollySanta --convert-tgs --static-format JPEG"].

Definition main {L : Library} (W : World) (argv : list str)
  : list event * outcome :=
  if List.length argv <? 2 then (usage, SysExit 1)
  else
    let pack_url := nth 1 argv [] in
    let convert_tgs := str_in (lit "--convert-tgs") argv in
    let static_format :=
      if str_in (lit "--static-format") argv then
        match nth_error argv (index_of (lit "--static-format") argv + 1) with
        | Some f => str_upper f
        | None => lit "WEBP"
        end
      else lit "WEBP" in
    download_sticker_pack W pack_url convert_tgs static_format
      (lit "downloads").

(** The exit status of the process whose [main] ended with [o]: 0 after
    a normal return, the argument of [sys.exit], 1 after a traceback. *)
Definition exit_status (o : outcome) : Z :=
  match o with
  | Returned => 0
  | SysExit code => code
  | Uncaught _ => 1
  end.

(** ** Observations on a run *)

(** The binary files a trace writes, in order, with their contents. *)
Definition binary_writes (t : list event) : list (str * bytes) :=
  flat_map (fun ev => match ev with
                      | WriteBytes f d => [(f, d)]
                      | _ => []
                      end) t.

(** The paths of the sticker files a trace writes. *)
Definition sticker_files (t : list event) : list str :=
  List.map fst (binary_writes t).

(** The paths of the text files (the manifest) a trace writes. *)
Definition text_files (t : list event) : list str :=
  flat_map (fun ev => match ev with
                      | WriteText f _ => [f]
                      | _ => []
                      end) t.

(** The arguments of the completed calls of [os.makedirs] in a trace,
    one per call. *)
Definition made_dirs (t : list event) : list str :=
  flat_map (fun ev => match ev with
                      | MakeDirs d => [d]
                      | _ => []
                      end) t.

(** The events that only inform the user. *)
Definition is_message (ev : event) : bool :=
  match ev with
  | Print _ | TqdmWrite _ => true
  | _ => false
  end.

(** The get-file endpoint answers the request for sticker [i+1] with an
    envelope whose [ok] is not true. *)
Definition resolution_fails {L : Library} (W : World) (TOKEN : str)
    (i : nat) (sticker : json) : Prop :=
  exists file_id emoji r file_data ok,
    py_getitem sticker (lit "file_id") = Ok file_id /\
    py_get sticker (lit "emoji") (JStr []) = Ok emoji /\
    requests_get W (S i) (getFile_url TOKEN) [(lit "file_id", file_id)] = Ok r /\
    json_body r = Ok file_data /\
    py_get file_data (lit "ok") JNull = Ok ok /\
    truthy ok = false.

(** The file path of sticker [i+1] is resolved, and the download
    answers with a status other than 200. *)
Definition download_fails {L : Library} (W : World) (TOKEN : str)
    (i : nat) (sticker : json) : Prop :=
  exists file_id emoji r file_data ok result file_path sticker_data,
    py_getitem sticker (lit "file_id") = Ok file_id /\
    py_get sticker (lit "emoji") (JStr []) = Ok emoji /\
    requests_get W (S i) (getFile_url TOKEN) [(lit "file_id", file_id)] = Ok r /\
    json_body r = Ok file_data /\
    py_get file_data (lit "ok") JNull = Ok ok /\
    truthy ok = true /\
    py_getitem file_data (lit "result") = Ok result /\
    py_getitem result (lit "file_path") = Ok file_path /\
    requests_get W (S i) (download_url TOKEN file_path) [] = Ok sticker_data /\
    status_code sticker_data <> 200%Z.

(** Both requests for sticker [i+1] succeed: its emoji field is [emoji],
    its resolved path is the string [file_path], its payload [data]. *)
Definition fetched {L : Library} (W : World) (TOKEN : str)
    (i : nat) (sticker emoji : json) (file_path : str) (data : bytes) : Prop :=
  fetch_sticker W TOKEN i sticker
  = ([], Ok (Some (emoji, JStr file_path, data))).

(** Sticker [i+1] is fetched and written: the loop body ends normally
    and has written a file. *)
Definition saved {L : Library} (W : World) (TOKEN : str)
    (convert_tgs : bool) (static_format pack_dir : str)
    (i : nat) (sticker : json) : Prop :=
  exists t,
    process_sticker W TOKEN convert_tgs static_format pack_dir i sticker
    = (t, Ok tt)
    /\ binary_writes t <> [].

(** [all_from P i l]: [P (i+k)] holds of the [k]-th item of [l]. *)
Fixpoint all_from (P : nat -> json -> Prop) (i : nat) (l : list json) : Prop :=
  match l with
  | [] => True
  | x :: rest => P i x /\ all_from P (S i) rest
  end.

(** The run gets as far as the loop: credential, format and URL are
    accepted, the metadata envelope is a success carrying [pack_info]
    with a string [title] and the list [items], and the pack directory
    and the manifest are written. *)
Definition prepared {L : Library} (W : World)
    (pack_url : str) (convert_tgs : bool) (static_format base_dir : str)
    (TOKEN pack_name : str) (pack_info : json) (title : str)
    (items : list json) : Prop :=
  let pack_dir := pack_dir_of base_dir (sanitize_filename title) pack_name in
  getenv_token W = Some TOKEN /\
  nonempty TOKEN = true /\
  str_in (str_upper static_format) valid_formats = true /\
  checked_pack_name pack_url = Ok (Some pack_name) /\
  (exists r data ok,
      requests_get W 0 (getStickerSet_url TOKEN) [(lit "name", JStr pack_name)]
      = Ok r /\
      json_body r = Ok data /\
      py_get data (lit "ok") JNull = Ok ok /\
      truthy ok = true /\
      py_getitem data (lit "result") = Ok pack_info) /\
  py_getitem pack_info (lit "stickers") = Ok (JList items) /\
  py_get pack_info (lit "title") (JStr pack_name) = Ok (JStr title) /\
  os_makedirs W pack_dir = None /\
  write_text_file W (path_join pack_dir (lit "pack_info.txt"))
    (manifest_text pack_info (JStr title) (List.length items) pack_url
       convert_tgs static_format) = None.

(** The events of a prepared run before the loop starts. *)
Definition preamble {L : Library}
    (pack_url : str) (convert_tgs : bool) (static_format base_dir : str)
    (pack_name : str) (pack_info : json) (title : str) (items : list json)
  : list event :=
  let pack_dir := pack_dir_of base_dir (sanitize_filename title) pack_name in
  [MakeDirs pack_dir;
   Print (LF :: lit "Found " ++ str_of_nat (List.length items)
          ++ lit " stickers in pack: " ++ title);
   WriteText (path_join pack_dir (lit "pack_info.txt"))
     (manifest_text pack_info (JStr title) (List.length items) pack_url
        convert_tgs static_format)].

Definition complete_message (pack_dir : str) : event :=
  Print (LF :: lit "Download complete! Stickers saved in: " ++ pack_dir).

(** The last line of a prepared run: the completion message after a
    loop that ended normally, the message of the exception otherwise
    (lines 174 and 176-177). *)
Definition run_end {L : Library} (pack_dir : str) (r : res unit) : event :=
  match r with
  | Ok _ => complete_message pack_dir
  | Raise e => Print (lit "Error: " ++ exn_message e)
  end.

(** The fetch of sticker [i+1] fails in one of the two ways that the
    loop answers with [continue]. *)
Definition skipped {L : Library} (W : World) (TOKEN : str)
    (i : nat) (sticker : json) : Prop :=
  resolution_fails W TOKEN i sticker \/ download_fails W TOKEN i sticker.

(** [files_named pack_dir i items files]: there is one file per item,
    in order, and the file of the [k]-th item is, inside [pack_dir],
    the number [i+k+1] formatted by [{:03d}], an underscore, the
    sanitized emoji of the item (or [sticker]), and an extension. *)
Fixpoint files_named (pack_dir : str) (i : nat) (items : list json)
    (files : list str) : Prop :=
  match items, files with
  | [], [] => True
  | sticker :: items', f :: files' =>
      (exists emoji name ext,
          py_get sticker (lit "emoji") (JStr []) = Ok emoji /\
          sanitize_value (emoji_or_sticker emoji) = Ok name /\
          f = path_join pack_dir
                (format_03d (i + 1) ++ lit "_" ++ name ++ ext))
      /\ files_named pack_dir (S i) items' files'
  | _, _ => False
  end.

(** Reading back the decimal number a string starts with. *)
Fixpoint read_nat (acc : nat) (s : str) : nat :=
  match s with
  | [] => acc
  | c :: t =>
      if is_ascii_digit c
      then read_nat (10 * acc + N.to_nat (c - 48)) t
      else acc
  end.

(** ** The identifier extractor as the specification words it

    The segment immediately following the first occurrence of the
    marker among the path segments, if there is one. *)
Fixpoint segment_after (marker : str) (parts : list str) : option str :=
  match parts with
  | [] => None
  | p :: rest =>
      if str_eqb p marker then
        match rest with
        | q :: _ => Some q
        | [] => None
        end
      else segment_after marker rest
  end.

(** ** A concrete library and concrete worlds

    Used to evaluate the embedding on explicit inputs.  The sample
    library agrees with the real routines on the inputs it is given
    here: ASCII case mapping, real UTF-8 encoding, and gzip and json
    restricted to two documents whose real encodings are tabulated. *)
Module Sample.

Definition byte_of (n : N) : byte :=
  match Byte.of_N n with Some b => b | None => x00 end.

Definition utf8_char (c : char) : res bytes :=
  (if c <? 128 then Ok [byte_of c]
   else if c <? 2048 then
     Ok [byte_of (192 + c / 64); byte_of (128 + c mod 64)]
   else if c <? 65536 then
     if (55296 <=? c) && (c <=? 57343)
     then Raise (External (lit "UnicodeEncodeError")
                   (lit "surrogates not allowed"))
     else Ok [byte_of (224 + c / 4096); byte_of (128 + (c / 64) mod 64);
              byte_of (128 + c mod 64)]
   else if c <? 1114112 then
     Ok [byte_of (240 + c / 262144); byte_of (128 + (c / 4096) mod 64);
         byte_of (128 + (c / 64) mod 64); byte_of (128 + c mod 64)]
   else Raise ValueError)%N.

Fixpoint utf8 (s : str) : res bytes :=
  match s with
  | [] => Ok []
  | c :: t =>
      match utf8_char c, utf8 t with
      | Ok a, Ok b => Ok (a ++ b)
      | Raise e, _ => Raise e
      | _, Raise e => Raise e
      end
  end.

(** ASCII bytes read as a string. *)
Definition decode_ascii (b : bytes) : str := List.map Byte.to_N b.

(** The two-byte text of the empty JSON object, and its gzip
    compression (header with zero time stamp, deflate block, CRC-32 and
    length). *)
Definition TEXT_EMPTY : bytes := [x7b; x7d].

Definition GZ_EMPTY : bytes :=
  [x1f; x8b; x08; x00; x00; x00; x00; x00; x02; x03; xab; xae; x05; x00;
   x43; xbf; xa6; xa3; x02; x00; x00; x00].

(** A small animation document: the object with key [v] bound to the
    string 5.5.2 and key [fr] bound to 60, on one line; its gzip
    compression; and what [json.dumps(_, indent=2)] prints for it. *)
Definition TEXT_DOC : bytes :=
  [x7b; x22; x76; x22; x3a; x20; x22; x35; x2e; x35; x2e; x32; x22; x2c;
   x20; x22; x66; x72; x22; x3a; x20; x36; x30; x7d].

Definition GZ_DOC : bytes :=
  [x1f; x8b; x08; x00; x00; x00; x00; x00; x02; x03; xab; x56; x2a; x53;
   xb2; x52; x50; x32; xd5; x33; xd5; x33; x52; xd2; x51; x50; x4a; x2b;
   x02; x72; xcd; x0c; x6a; x01; x91; xb0; x4f; x1a; x18; x00; x00; x00].

Definition TEXT_DOC_INDENTED : bytes :=
  [x7b; x0a; x20; x20; x22; x76; x22; x3a; x20; x22; x35; x2e; x35; x2e;
   x32; x22; x2c; x0a; x20; x20; x22; x66; x72; x22; x3a; x20; x36; x30;
   x0a; x7d].

Definition DOC : json :=
  JDict [(lit "v", JStr (lit "5.5.2")); (lit "fr", JInt 60)].

Definition loads (text : bytes) : res json :=
  if bytes_eqb text TEXT_EMPTY then Ok (JDict [])
  else if bytes_eqb text TEXT_DOC || bytes_eqb text TEXT_DOC_INDENTED
       then Ok DOC
       else Raise (External (lit "JSONDecodeError") (lit "Expecting value")).

Definition dumps (doc : json) : str :=
  match doc with
  | JDict [] => lit "{}"
  | JDict (_ :: _) => decode_ascii TEXT_DOC_INDENTED
  | _ => lit "null"
  end.

(** Any other payload is refused the way [gzip] refuses a payload whose
    first two bytes are not its magic number: the message quotes those
    two bytes (printable ASCII in the payloads used here). *)
Definition decompress (data : bytes) : res bytes :=
  if bytes_eqb data GZ_EMPTY then Ok TEXT_EMPTY
  else if bytes_eqb data GZ_DOC then Ok TEXT_DOC
  else Raise (External (lit "BadGzipFile")
                (lit "Not a gzipped file (b'"
                 ++ decode_ascii (firstn 2 data) ++ lit "')")).

Definition message (e : exn) : str :=
  match e with
  | KeyError k => lit "'" ++ k ++ lit "'"
  | External _ m => m
  | _ => []
  end.

Definition repr (v : json) : str :=
  match v with
  | JNull => lit "None"
  | JBool true => lit "True"
  | JBool false => lit "False"
  | JStr s => lit "'" ++ s ++ lit "'"
  | _ => lit "<object>"
  end.

(** The sample PIL decodes nothing: every [Image.open] fails (the real
    message goes on with a description of the stream object, left out
    here); the sample URL checks reject every bracketed host. *)
#[export] Instance lib : Library := {|
  str_upper := List.map ascii_upper_char;
  str_lower := List.map ascii_lower_char;
  repr_value := repr;
  exn_message := message;
  check_bracketed_netloc := fun _ => false;
  checknetloc_nfkc := fun _ => true;
  gzip_decompress := decompress;
  json_loads := loads;
  json_dumps_indent2 := dumps;
  utf8_encode := utf8;
  image := bytes;
  image_open := fun _ =>
    Raise (External (lit "UnidentifiedImageError")
             (lit "cannot identify image file"));
  image_convert_rgb := fun img => Ok img;
  image_save := fun img _ => Ok img
|}.

Definition TOKEN : str := lit "123456:ABC-DEF".

Definition URL : str := lit "https://t.me/addstickers/Foo".

(** A URL with a segment between the marker's successor and the end,
    and its path segments. *)
Definition URL_NESTED : str := lit "https://t.me/addstickers/Foo/Bar".

Definition PARTS_NESTED : list str := [[]; MARKER; lit "Foo"; lit "Bar"].


(** A pack of three stickers: one animated, two static; the third has
    no emoji. *)
Definition GRINNING : str := [128512%N].
Definition PARTY : str := [127881%N].

Definition stickers : list json :=
  [JDict [(lit "file_id", JStr (lit "AAA1")); (lit "emoji", JStr GRINNING)];
   JDict [(lit "file_id", JStr (lit "AAA2")); (lit "emoji", JStr PARTY)];
   JDict [(lit "file_id", JStr (lit "AAA3"))]].

Definition pack_info : json :=
  JDict [(lit "name", JStr (lit "Foo"));
         (lit "title", JStr (lit "Foo Pack"));
         (lit "stickers", JList stickers)].

Definition metadata_ok : json :=
  JDict [(lit "ok", JBool true); (lit "result", pack_info)].

Definition metadata_error : json :=
  JDict [(lit "ok", JBool false);
         (lit "error_code", JInt 400);
         (lit "description", JStr (lit "Bad Request: STICKERSET_INVALID"))].

Definition WEBP : bytes :=
  [x52; x49; x46; x46; x04; x00; x00; x00; x57; x45; x42; x50].

(** File id, resolved path and payload of each sticker. *)
Definition files : list (str * (str * bytes)) :=
  [(lit "AAA1", (lit "stickers/file_1.tgs", GZ_DOC));
   (lit "AAA2", (lit "stickers/file_2.webp", WEBP));
   (lit "AAA3", (lit "stickers/file_3.webp", WEBP))].

Definition no_json : res json :=
  Raise (External (lit "JSONDecodeError") (lit "Expecting value")).

(** The same table with a first payload that is not a gzip stream. *)
Definition NOT_GZIP : bytes := [x6e; x6f; x74; x20; x67; x7a; x69; x70].

Definition files_corrupt : list (str * (str * bytes)) :=
  [(lit "AAA1", (lit "stickers/file_1.tgs", NOT_GZIP));
   (lit "AAA2", (lit "stickers/file_2.webp", WEBP));
   (lit "AAA3", (lit "stickers/file_3.webp", WEBP))].

Definition get_file (table : list (str * (str * bytes))) (file_id : json)
  : json :=
  match file_id with
  | JStr id =>
      match List.find (fun f => str_eqb id (fst f)) table with
      | Some (_, (p, _)) =>
          JDict [(lit "ok", JBool true);
                 (lit "result", JDict [(lit "file_id", file_id);
                                       (lit "file_path", JStr p)])]
      | None => JDict [(lit "ok", JBool false)]
      end
  | _ => JDict [(lit "ok", JBool false)]
  end.

(** The server: [table] is what it stores, [metadata] the answer of the
    get-sticker-set endpoint, [missing] the resolved paths whose
    download answers 404. *)
Definition get (table : list (str * (str * bytes))) (metadata : json)
    (missing : list str)
    (when : nat) (url : str) (params : list (str * json)) : res response :=
  if str_eqb url (getStickerSet_url TOKEN) then
    Ok {| status_code := 200; content := []; json_body := Ok metadata |}
  else if str_eqb url (getFile_url TOKEN) then
    match params with
    | [(_, file_id)] =>
        Ok {| status_code := 200; content := [];
              json_body := Ok (get_file table file_id) |}
    | _ => Ok {| status_code := 400; content := [];
                 json_body := Ok (JDict [(lit "ok", JBool false)]) |}
    end
  else
    match List.find
            (fun f => str_eqb url (download_url TOKEN (JStr (fst (snd f)))))
            table with
    | Some (_, (p, payload)) =>
        if str_in p missing
        then Ok {| status_code := 404; content := []; json_body := no_json |}
        else Ok {| status_code := 200; content := payload;
                   json_body := no_json |}
    | None => Ok {| status_code := 404; content := []; json_body := no_json |}
    end.

(** A world in which the writes listed in [full] (by sticker number)
    fail with [ENOSPC]. *)
Definition world (table : list (str * (str * bytes))) (metadata : json)
    (missing : list str) (full : list nat) : World := {|
  getenv_token := Some TOKEN;
  requests_get := get table metadata missing;
  os_makedirs := fun _ => None;
  write_text_file := fun _ _ => None;
  write_binary_file := fun when _ _ =>
    if existsb (Nat.eqb when) full
    then Some (External (lit "OSError")
                 (lit "[Errno 28] No space left on device"))
    else None
|}.

(** All three stickers are served and written. *)
Definition world_ok : World := world files metadata_ok [] [].

(** The animated payload is corrupt. *)
Definition world_corrupt : World := world files_corrupt metadata_ok [] [].

(** The download of sticker 2 answers 404. *)
Definition world_404 : World :=
  world files metadata_ok [lit "stickers/file_2.webp"] [].

(** The write of sticker 1 fails. *)
Definition world_full : World := world files metadata_ok [] [1].

(** The metadata endpoint answers with a failure envelope. *)
Definition world_no_pack : World := world files metadata_error [] [].

(** No credential in the environment. *)
Definition world_no_token : World := {|
  getenv_token := None;
  requests_get := get files metadata_ok [];
  os_makedirs := fun _ => None;
  write_text_file := fun _ _ => None;
  write_binary_file := fun _ _ _ => None
|}.

Definition STICKER1 : json := nth 0 stickers JNull.
Definition STICKER2 : json := nth 1 stickers JNull.
Definition STICKER3 : json := nth 2 stickers JNull.

Definition PACK_DIR : str := lit "downloads/Foo Pack (Foo)".

End Sample.

(** ** The order of the file-system events of a run *)



(** ** More concrete inputs *)
Module Edge.

(** Fifty-one characters: forty-nine letters, a space, a letter. *)
Definition LONG_NAME : str := repeat (chr "a") 49 ++ lit " b".

(** A URL whose network location opens a bracket and never closes it. *)
Definition URL_BRACKET : str := lit "https://[/addstickers/Foo".

(** A URL with a query string and a fragment after the pack name. *)
Definition URL_QUERY : str := lit "https://t.me/addstickers/Foo?startapp=1#top".

(** A sticker descriptor without the [file_id] key. *)
Definition STICKER_NO_ID : json := JDict [(lit "emoji", JStr Sample.PARTY)].

(** The sample pack with that descriptor in second position. *)
Definition stickers : list json :=
  [Sample.STICKER1; STICKER_NO_ID; Sample.STICKER3].

Definition pack_info : json :=
  JDict [(lit "name", JStr (lit "Foo"));
         (lit "title", JStr (lit "Foo Pack"));
         (lit "stickers", JList stickers)].

Definition metadata : json :=
  JDict [(lit "ok", JBool true); (lit "result", pack_info)].

Definition world : World := Sample.world Sample.files metadata [] [].

(** A library like the sample one whose PIL decodes every payload and
    saves it as the four bytes [CONVERTED], or as no byte at all when
    asked for the format [PNG]. *)
Definition CONVERTED : bytes := [x89; x50; x4e; x47].

#[export] Instance lib : Library := {|
  str_upper := List.map ascii_upper_char;
  str_lower := List.map ascii_lower_char;
  repr_value := Sample.repr;
  exn_message := Sample.message;
  check_bracketed_netloc := fun _ => false;
  checknetloc_nfkc := fun _ => true;
  gzip_decompress := Sample.decompress;
  json_loads := Sample.loads;
  json_dumps_indent2 := Sample.dumps;
  utf8_encode := Sample.utf8;
  image := bytes;
  image_open := fun b => Ok b;
  image_convert_rgb := fun img => Ok img;
  image_save := fun _ f =>
    if str_eqb f (lit "PNG") then Ok [] else Ok CONVERTED
|}.

End Edge.

(** * Properties *)

(** ** Lists and strings *)

Lemma in_dropwhile (p : char -> bool) (s : str) (c : char) :
  In c (dropwhile p s) -> In c s.
Proof.
  induction s as [|a s IH]; simpl; [tauto|].
  destruct (p a); simpl; tauto.
Qed.

Lemma in_strip_by (p : char -> bool) (s : str) (c : char) :
  In c (strip_by p s) -> In c s.
Proof.
  unfold strip_by, rstrip_by, lstrip_by. intros H.
  apply in_rev in H. apply in_dropwhile in H. apply in_rev in H.
  now apply in_dropwhile in H.
Qed.

Lemma in_firstn {A} (n : nat) (l : list A) (x : A) :
  In x (firstn n l) -> In x l.
Proof.
  revert l; induction n as [|n IH]; intros [|a l]; simpl; try tauto.
  intros [H|H]; [now left | right; now apply IH].
Qed.

Lemma length_firstn_le {A} (n : nat) (l : list A) :
  List.length (firstn n l) <= n.
Proof.
  revert l; induction n as [|n IH]; intros [|a l]; simpl; try lia.
  specialize (IH l); lia.
Qed.

Lemma in_replace_char (a b c : char) (s : str) :
  In c (replace_char a b s) -> c = b \/ (In c s /\ c <> a).
Proof.
  unfold replace_char. rewrite in_map_iff. intros [x [Hx Hin]].
  destruct (N.eqb_spec x a); subst; auto.
Qed.

Lemma dropwhile_all (p : char -> bool) (s : str) :
  forallb p s = true -> dropwhile p s = [].
Proof.
  induction s as [|a s IH]; simpl; [reflexivity|].
  destruct (p a); simpl; [exact IH | discriminate].
Qed.

Lemma strip_by_all (p : char -> bool) (s : str) :
  forallb p s = true -> strip_by p s = [].
Proof.
  intros H. unfold strip_by, rstrip_by, lstrip_by.
  now rewrite (dropwhile_all p s H).
Qed.

Lemma has_true_iff (c : char) (s : str) : has c s = true <-> In c s.
Proof.
  unfold has. rewrite existsb_exists. split.
  - intros [x [Hin Hx]]. apply N.eqb_eq in Hx. now subst.
  - intros H. exists c. split; [exact H | apply N.eqb_refl].
Qed.

Lemma str_eqb_eq (a b : str) : str_eqb a b = true <-> a = b.
Proof.
  unfold str_eqb. destruct (list_eq_dec N.eq_dec a b); split;
    congruence.
Qed.

Lemma str_eqb_refl (a : str) : str_eqb a a = true.
Proof. now apply str_eqb_eq. Qed.

Lemma str_in_iff (x : str) (l : list str) : str_in x l = true <-> In x l.
Proof.
  unfold str_in. rewrite existsb_exists. split.
  - intros [y [Hin Hy]]. apply str_eqb_eq in Hy. now subst.
  - intros H. exists x. split; [exact H | apply str_eqb_refl].
Qed.

(** ** The sanitizer *)

Lemma sanitize_filename_char (x : str) (c : char) :
  In c (sanitize_filename x) ->
  illegal_char c = false /\ c <> LF /\ c <> CR.
Proof.
  unfold sanitize_filename, strip. intros H.
  apply in_firstn in H. apply in_strip_by in H.
  apply in_replace_char in H. destruct H as [H | [H Hcr]].
  - subst c. repeat split; discriminate.
  - apply in_replace_char in H. destruct H as [H | [H Hlf]].
    + subst c. repeat split; discriminate.
    + apply filter_In in H. destruct H as [_ H].
      apply negb_true_iff in H. auto.
Qed.

(** C6: [sanitize_filename] is a total function of its argument; its
    result holds none of the nine characters of the class (less-than,
    greater-than, colon, double quote, slash, backslash, bar, question
    mark, asterisk), no line feed and no carriage return; it is at most
    50 characters long; and the empty string is mapped to the empty
    string. *)
Theorem sanitize_filename_safe :
  illegal_chars = [60; 62; 58; 34; 47; 92; 124; 63; 42]%N /\
  forall x : str,
    (exists y, sanitize_filename x = y
               /\ forall y', sanitize_filename x = y' -> y' = y) /\
    (forall c, In c illegal_chars -> ~ In c (sanitize_filename x)) /\
    ~ In LF (sanitize_filename x) /\
    ~ In CR (sanitize_filename x) /\
    List.length (sanitize_filename x) <= 50 /\
    sanitize_filename [] = [].
Proof.
  split; [reflexivity|]. intros x. repeat split.
  - exists (sanitize_filename x). split; [reflexivity | congruence].
  - intros c Hc Hin. apply sanitize_filename_char in Hin.
    destruct Hin as [Hill _]. unfold illegal_char in Hill.
    apply has_true_iff in Hc. congruence.
  - intros Hin. apply sanitize_filename_char in Hin. tauto.
  - intros Hin. apply sanitize_filename_char in Hin. tauto.
  - apply length_firstn_le.
Qed.

Lemma sanitize_filename_removed (s : str) :
  forallb (fun c => illegal_char c || isspace c) s = true ->
  sanitize_filename s = [].
Proof.
  intros H. unfold sanitize_filename, strip.
  rewrite strip_by_all; [reflexivity|].
  unfold replace_char. rewrite !forallb_forall in *.
  intros c Hc. apply in_map_iff in Hc. destruct Hc as [b [Hb Hc]].
  destruct (N.eqb_spec b CR); [subst c; reflexivity|]. subst c.
  apply in_map_iff in Hc. destruct Hc as [a [Ha Hc]].
  destruct (N.eqb_spec a LF); [subst b; reflexivity|]. subst b.
  apply filter_In in Hc. destruct Hc as [Hin Hill].
  apply negb_true_iff in Hill. specialize (H a Hin).
  now rewrite Hill in H.
Qed.

(** ** The monad *)

Lemma bind_lift_ok {A B} (a : A) (k : A -> M B) :
  bind (lift (Ok a)) k = k a.
Proof. unfold bind, lift. now destruct (k a). Qed.

Lemma bind_lift_raise {A B} (e : exn) (k : A -> M B) :
  bind (lift (Raise e)) k = raise e.
Proof. reflexivity. Qed.

Lemma bind_nil_ok {A B} (a : A) (k : A -> M B) : bind ([], Ok a) k = k a.
Proof. apply bind_lift_ok. Qed.

Lemma bind_ret {A B} (a : A) (k : A -> M B) : bind (ret a) k = k a.
Proof. unfold bind, ret. now destruct (k a). Qed.

Lemma bind_raise {A B} (e : exn) (k : A -> M B) : bind (raise e) k = raise e.
Proof. reflexivity. Qed.

Lemma bind_pair {A B} (t : list event) (a : A) (k : A -> M B) :
  bind (t, Ok a) k = (t ++ fst (k a), snd (k a)).
Proof. unfold bind. now destruct (k a). Qed.

Lemma bind_pair_raise {A B} (t : list event) (e : exn) (k : A -> M B) :
  bind (t, Raise e) k = (t, Raise e).
Proof. reflexivity. Qed.

Lemma bind_emit {B} (ev : event) (k : unit -> M B) :
  bind (emit ev) k = (ev :: fst (k tt), snd (k tt)).
Proof. unfold emit. now rewrite bind_pair. Qed.

Lemma bind_assoc {A B C} (m : M A) (k : A -> M B) (h : B -> M C) :
  bind (bind m k) h = bind m (fun a => bind (k a) h).
Proof.
  destruct m as [t [a|e]]; [|reflexivity].
  unfold bind. destruct (k a) as [t' [b|e]]; [|reflexivity].
  destruct (h b) as [t'' r]. now rewrite app_assoc.
Qed.

(** ** The identifier extractor *)

Lemma split_nonempty (sep : char) (s : str) : split sep s <> [].
Proof.
  induction s as [|c t IH]; simpl; [discriminate|].
  destruct (N.eqb c sep); [discriminate|].
  destruct (split sep t); discriminate.
Qed.

Lemma checked_pack_name_parts {L : Library} (url : str) (parts : list str) :
  path_parts url = Ok parts ->
  checked_pack_name url =
  Ok (if str_in MARKER parts && nonempty (last parts [])
      then Some (last parts []) else None).
Proof.
  intros H. unfold checked_pack_name, extract_pack_name, last_item.
  rewrite H. destruct (str_in MARKER parts); simpl; [|reflexivity].
  now destruct (last parts []).
Qed.

(** What the run does when no pack name is accepted: two lines on
    standard output and [sys.exit(1)]. *)
Lemma invalid_pack_url_exits {L : Library} (W : World) (pack_url : str)
    (convert_tgs : bool) (static_format base_dir TOKEN : str) :
  getenv_token W = Some TOKEN ->
  nonempty TOKEN = true ->
  str_in (str_upper static_format) valid_formats = true ->
  checked_pack_name pack_url = Ok None ->
  download_sticker_pack W pack_url convert_tgs static_format base_dir
  = ([Print (lit "Error: Invalid sticker pack URL");
      Print (lit "URL should be in format: https://t.me/addstickers/PackName")],
     SysExit 1).
Proof.
  intros HT Hne Hf Hn. unfold download_sticker_pack.
  rewrite HT. destruct TOKEN; [discriminate|].
  rewrite Hf, Hn. reflexivity.
Qed.

(** C1, as the code has it: for a URL that [urlparse] accepts,
    [extract_pack_name] followed by the guard of lines 74-78 fails (the
    run prints the invalid-URL message and exits with status 1) when the
    marker is not among the path segments; when the marker is among
    them and is not the last segment, it succeeds exactly when the last
    segment is non-empty, and returns that last segment, which is the
    segment following the marker when the marker is the last but one.
    For [https://t.me/addstickers/Foo] it returns [Foo]. *)
Theorem extract_pack_name_last_segment {L : Library}
    (url : str) (parts : list str) :
  path_parts url = Ok parts ->
  checked_pack_name (lit "https://t.me/addstickers/Foo") = Ok (Some (lit "Foo"))
  /\ (~ In MARKER parts -> checked_pack_name url = Ok None)
  /\ (In MARKER parts -> last parts [] <> MARKER ->
      (last parts [] = [] -> checked_pack_name url = Ok None) /\
      (last parts [] <> [] ->
       checked_pack_name url = Ok (Some (last parts []))))
  /\ (forall pre x, parts = pre ++ [MARKER; x] -> x <> [] ->
      checked_pack_name url = Ok (Some x))
  /\ (forall W convert_tgs static_format base_dir TOKEN,
      getenv_token W = Some TOKEN ->
      nonempty TOKEN = true ->
      str_in (str_upper static_format) valid_formats = true ->
      checked_pack_name url = Ok None ->
      snd (download_sticker_pack W url convert_tgs static_format base_dir)
      = SysExit 1).
Proof.
  intros H. pose proof (checked_pack_name_parts url H) as E.
  split; [reflexivity|]. split; [|split; [|split]].
  - intros Hn. rewrite E.
    destruct (str_in MARKER parts) eqn:Hm; [|reflexivity].
    apply str_in_iff in Hm. contradiction.
  - intros Hin _. apply str_in_iff in Hin. rewrite E, Hin. simpl.
    split; intros Hl.
    + now rewrite Hl.
    + now destruct (last parts []).
  - intros pre x Hp Hx. rewrite E.
    assert (Hl : last parts [] = x).
    { subst parts. change [MARKER; x] with ([MARKER] ++ [x]).
      rewrite app_assoc. apply last_last. }
    assert (Hin : str_in MARKER parts = true).
    { apply str_in_iff. subst parts. apply in_or_app. right. now left. }
    rewrite Hin, Hl. now destruct x.
  - intros W ct sf bd TOKEN HT Hne Hf Hn.
    now rewrite (invalid_pack_url_exits W url ct sf bd HT Hne Hf Hn).
Qed.

(** The theorem of C1 at [https://t.me/addstickers/Foo], whose path
    segments are the empty string, the marker and [Foo]. *)
Lemma extract_pack_name_last_segment_witness :
  path_parts (L := Sample.lib) Sample.URL = Ok [[]; MARKER; lit "Foo"]
  /\ checked_pack_name (L := Sample.lib) Sample.URL = Ok (Some (lit "Foo")).
Proof.
  split; [reflexivity|].
  assert (H : path_parts (L := Sample.lib) Sample.URL
              = Ok [[]; MARKER; lit "Foo"]) by reflexivity.
  destruct (extract_pack_name_last_segment (L := Sample.lib) Sample.URL H)
    as [_ [_ [_ [Hx _]]]].
  apply (Hx [[]] (lit "Foo")); [reflexivity | discriminate].
Defined.

(** C1 as stated fails: in [https://t.me/addstickers/Foo/Bar] the
    marker is among the path segments and is not the last one, the
    segment immediately following it is [Foo], and the code returns
    [Bar]. *)
Lemma extract_pack_name_not_following_segment :
  path_parts (L := Sample.lib) Sample.URL_NESTED = Ok Sample.PARTS_NESTED
  /\ segment_after MARKER Sample.PARTS_NESTED = Some (lit "Foo")
  /\ checked_pack_name (L := Sample.lib) Sample.URL_NESTED
     = Ok (Some (lit "Bar"))
  /\ checked_pack_name (L := Sample.lib) Sample.URL_NESTED
     <> Ok (segment_after MARKER Sample.PARTS_NESTED).
Proof.
  repeat split; try reflexivity. vm_compute. discriminate.
Qed.

(** ** The converters and the loop body *)

Lemma convert_tgs_to_lottie_ok {L : Library} (data text : bytes) (doc : json) :
  gzip_decompress data = Ok text ->
  json_loads text = Ok doc ->
  convert_tgs_to_lottie data = ret doc.
Proof.
  intros Hz Hj. unfold convert_tgs_to_lottie.
  now rewrite Hz, bind_lift_ok, Hj.
Qed.

Lemma convert_tgs_to_lottie_failed {L : Library} (data : bytes) (e : exn) :
  gzip_decompress data = Raise e
  \/ (exists text, gzip_decompress data = Ok text /\ json_loads text = Raise e) ->
  convert_tgs_to_lottie data
  = ([Print (lit "Error converting TGS to Lottie: " ++ exn_message e)],
     Ok JNull).
Proof.
  unfold convert_tgs_to_lottie. intros [Hz | [text [Hz Hj]]].
  - now rewrite Hz.
  - now rewrite Hz, bind_lift_ok, Hj.
Qed.

Lemma convert_tgs_to_lottie_total {L : Library} (data : bytes) :
  exists t v, convert_tgs_to_lottie data = (t, Ok v).
Proof.
  destruct (gzip_decompress data) as [text|e] eqn:Hz.
  - destruct (json_loads text) as [doc|e] eqn:Hj.
    + exists [], doc. now apply convert_tgs_to_lottie_ok with text.
    + eexists _, _. apply convert_tgs_to_lottie_failed. right. eauto.
  - eexists _, _. apply convert_tgs_to_lottie_failed. left. eauto.
Qed.

Lemma messages_write_nothing (t : list event) :
  forallb is_message t = true ->
  binary_writes t = [] /\ text_files t = [] /\ made_dirs t = [].
Proof.
  induction t as [|ev t IH]; simpl; [auto|].
  intros H. apply andb_true_iff in H. destruct H as [Hev Ht].
  destruct (IH Ht) as [Hb [Hx Hd]].
  destruct ev; try discriminate; simpl; auto.
Qed.

Lemma convert_webp_to_format_total {L : Library} (data : bytes) (f : str) :
  exists t v, convert_webp_to_format data f = (t, Ok v)
              /\ forallb is_message t = true.
Proof.
  unfold convert_webp_to_format.
  destruct (image_open data) as [img|e]; [|eexists _, _; now split].
  rewrite bind_lift_ok.
  destruct (str_eqb f (lit "JPEG")).
  - destruct (image_convert_rgb img) as [img'|e]; [|eexists _, _; now split].
    rewrite bind_lift_ok.
    destruct (image_save img' f) as [out|e]; eexists _, _; now split.
  - rewrite bind_ret.
    destruct (image_save img f) as [out|e]; eexists _, _; now split.
Qed.

(** The conversion step only prints diagnostics. *)
Lemma convert_sticker_messages {L : Library}
    (convert_tgs : bool) (static_format : str) (is_animated : bool)
    (data : bytes) :
  forallb is_message
    (fst (convert_sticker convert_tgs static_format is_animated data)) = true.
Proof.
  unfold convert_sticker.
  destruct is_animated; [destruct convert_tgs; [|reflexivity]|].
  - destruct (gzip_decompress data) as [text|e] eqn:Hz;
      [destruct (json_loads text) as [doc|e] eqn:Hj|].
    + rewrite (convert_tgs_to_lottie_ok data Hz Hj), bind_ret.
      destruct (truthy doc); [|reflexivity].
      now destruct (utf8_encode (json_dumps_indent2 doc)).
    + rewrite (@convert_tgs_to_lottie_failed _ data e)
        by (right; eauto). reflexivity.
    + rewrite (@convert_tgs_to_lottie_failed _ data e)
        by (left; exact Hz). reflexivity.
  - destruct (negb (str_eqb (str_upper static_format) (lit "WEBP")));
      [|reflexivity].
    destruct (convert_webp_to_format_total data static_format)
      as [t [v [E Hw]]].
    rewrite E, bind_pair. simpl.
    destruct v as [c|]; [destruct (nonempty c)|]; simpl;
      now rewrite app_nil_r.
Qed.

(** The loop body for a sticker that was fetched, once the conversion
    step has produced [(ext, c)] and the name part is [name]: the
    diagnostics of the conversion, then one write. *)
Lemma process_sticker_converted {L : Library} (W : World) (TOKEN : str)
    (convert_tgs : bool) (static_format pack_dir : str) (i : nat)
    (sticker emoji : json) (file_path : str) (data : bytes)
    (t : list event) (ext : str) (c : bytes) (name : str) :
  fetched W TOKEN i sticker emoji file_path data ->
  convert_sticker convert_tgs static_format
    (endswith (lit ".tgs") file_path) data = (t, Ok (ext, c)) ->
  sanitize_value (emoji_or_sticker emoji) = Ok name ->
  process_sticker W TOKEN convert_tgs static_format pack_dir i sticker
  = ((t, Ok tt) ;;;
     do_write_bytes W (S i)
       (path_join pack_dir (sticker_filename i name ext)) c).
Proof.
  intros Hf Hc Hn. unfold process_sticker, fetched in *.
  rewrite Hf, bind_nil_ok. cbv beta iota.
  unfold py_endswith, lift. rewrite bind_nil_ok, Hc, !bind_pair.
  cbv beta. unfold save_sticker. cbn [fst snd].
  rewrite Hn. unfold lift. now rewrite bind_nil_ok.
Qed.

(** C9: when no conversion is requested for the kind of a fetched
    sticker (an animated one without [convert_tgs], or a static one
    whose format upper-cases to WEBP), the conversion step returns the
    downloaded payload with the original extension, [.tgs] or [.webp],
    and the loop body writes exactly that payload under that
    extension. *)
Theorem no_conversion_keeps_payload {L : Library} (W : World) (TOKEN : str)
    (convert_tgs : bool) (static_format pack_dir : str) (i : nat)
    (sticker emoji : json) (file_path : str) (data : bytes) (name : str) :
  fetched W TOKEN i sticker emoji file_path data ->
  sanitize_value (emoji_or_sticker emoji) = Ok name ->
  (endswith (lit ".tgs") file_path = true /\ convert_tgs = false)
  \/ (endswith (lit ".tgs") file_path = false
      /\ str_upper static_format = lit "WEBP") ->
  let ext := if endswith (lit ".tgs") file_path
             then lit ".tgs" else lit ".webp" in
  convert_sticker convert_tgs static_format
    (endswith (lit ".tgs") file_path) data = ret (ext, data)
  /\ process_sticker W TOKEN convert_tgs static_format pack_dir i sticker
     = do_write_bytes W (S i)
         (path_join pack_dir (sticker_filename i name ext)) data.
Proof.
  intros Hf Hn Hk ext.
  assert (Hc : convert_sticker convert_tgs static_format
                 (endswith (lit ".tgs") file_path) data = ret (ext, data)).
  { unfold convert_sticker, ext.
    destruct Hk as [[Ha Hct] | [Ha Hup]]; rewrite Ha.
    - now rewrite Hct.
    - now rewrite Hup. }
  split; [exact Hc|].
  rewrite (@process_sticker_converted L W TOKEN convert_tgs static_format
             pack_dir i sticker emoji file_path data _ _ _ name Hf Hc Hn).
  apply (bind_ret tt).
Qed.

(** C7: with animated conversion requested, a fetched animated payload
    that [gzip.decompress] or [json.loads] rejects is kept as it is:
    the conversion step prints the diagnostic and returns the payload
    unchanged with extension [.tgs], and the loop body writes that.
    [convert_tgs_to_lottie] never raises, whatever its input. *)
Theorem corrupt_animation_falls_back {L : Library} (W : World) (TOKEN : str)
    (static_format pack_dir : str) (i : nat)
    (sticker emoji : json) (file_path : str) (data : bytes) (name : str)
    (e : exn) :
  fetched W TOKEN i sticker emoji file_path data ->
  endswith (lit ".tgs") file_path = true ->
  sanitize_value (emoji_or_sticker emoji) = Ok name ->
  gzip_decompress data = Raise e
  \/ (exists text, gzip_decompress data = Ok text /\ json_loads text = Raise e) ->
  let diagnostic :=
    Print (lit "Error converting TGS to Lottie: " ++ exn_message e) in
  (forall any, exists t v, convert_tgs_to_lottie any = (t, Ok v))
  /\ convert_sticker true static_format true data
     = ([diagnostic], Ok (lit ".tgs", data))
  /\ process_sticker W TOKEN true static_format pack_dir i sticker
     = (emit diagnostic ;;;
        do_write_bytes W (S i)
          (path_join pack_dir (sticker_filename i name (lit ".tgs"))) data).
Proof.
  intros Hf Ha Hn Hbad diagnostic.
  assert (Hc : convert_sticker true static_format true data
               = ([diagnostic], Ok (lit ".tgs", data))).
  { unfold convert_sticker.
    now rewrite (@convert_tgs_to_lottie_failed _ data e Hbad). }
  split; [apply convert_tgs_to_lottie_total|]. split; [exact Hc|].
  assert (Hc' : convert_sticker true static_format
                  (endswith (lit ".tgs") file_path) data
                = ([diagnostic], Ok (lit ".tgs", data)))
    by (rewrite Ha; exact Hc).
  now rewrite (@process_sticker_converted L W TOKEN true static_format
                 pack_dir i sticker emoji file_path data _ _ _ name Hf Hc' Hn).
Qed.

(** What the conversion step does with a payload that decompresses and
    parses: line 142 tests the truth value of the document, not
    whether the conversion failed. *)
Lemma convert_sticker_parsed {L : Library} (static_format : str)
    (data text : bytes) (doc : json) :
  gzip_decompress data = Ok text ->
  json_loads text = Ok doc ->
  convert_tgs_to_lottie data = ret doc
  /\ convert_sticker true static_format true data
     = (if truthy doc
        then encoded <- lift (utf8_encode (json_dumps_indent2 doc)) ;;
             ret (lit ".json", encoded)
        else ret (lit ".tgs", data)).
Proof.
  intros Hz Hj.
  pose proof (convert_tgs_to_lottie_ok data Hz Hj) as Hc.
  split; [exact Hc|]. unfold convert_sticker. now rewrite Hc, bind_ret.
Qed.

(** The theorem of C9 at the static second sticker and at the animated
    first sticker of the sample pack, nothing converted. *)
Lemma no_conversion_keeps_payload_witness :
  process_sticker (L := Sample.lib) Sample.world_ok Sample.TOKEN false
    (lit "WEBP") Sample.PACK_DIR 1 Sample.STICKER2
  = do_write_bytes Sample.world_ok 2
      (path_join Sample.PACK_DIR
         (sticker_filename 1 Sample.PARTY (lit ".webp"))) Sample.WEBP
  /\ process_sticker (L := Sample.lib) Sample.world_ok Sample.TOKEN false
       (lit "WEBP") Sample.PACK_DIR 0 Sample.STICKER1
     = do_write_bytes Sample.world_ok 1
         (path_join Sample.PACK_DIR
            (sticker_filename 0 Sample.GRINNING (lit ".tgs"))) Sample.GZ_DOC.
Proof.
  split.
  - refine (proj2 (@no_conversion_keeps_payload Sample.lib Sample.world_ok
                     Sample.TOKEN false (lit "WEBP") Sample.PACK_DIR 1
                     Sample.STICKER2 (JStr Sample.PARTY)
                     (lit "stickers/file_2.webp") Sample.WEBP Sample.PARTY
                     _ _ _)).
    + reflexivity.
    + reflexivity.
    + right. split; reflexivity.
  - refine (proj2 (@no_conversion_keeps_payload Sample.lib Sample.world_ok
                     Sample.TOKEN false (lit "WEBP") Sample.PACK_DIR 0
                     Sample.STICKER1 (JStr Sample.GRINNING)
                     (lit "stickers/file_1.tgs") Sample.GZ_DOC Sample.GRINNING
                     _ _ _)).
    + reflexivity.
    + reflexivity.
    + left. split; reflexivity.
Defined.

(** The theorem of C7 at the first sticker of the sample pack when the
    server stores bytes that are not a gzip stream. *)
Lemma corrupt_animation_falls_back_witness :
  convert_sticker (L := Sample.lib) true (lit "WEBP") true Sample.NOT_GZIP
  = ([Print (lit "Error converting TGS to Lottie: Not a gzipped file (b'no')")],
     Ok (lit ".tgs", Sample.NOT_GZIP))
  /\ sticker_files
       (fst (process_sticker (L := Sample.lib) Sample.world_corrupt
               Sample.TOKEN true (lit "WEBP") Sample.PACK_DIR 0
               Sample.STICKER1))
     = [path_join Sample.PACK_DIR
          (sticker_filename 0 Sample.GRINNING (lit ".tgs"))].
Proof.
  destruct (@corrupt_animation_falls_back Sample.lib Sample.world_corrupt
              Sample.TOKEN (lit "WEBP") Sample.PACK_DIR 0 Sample.STICKER1
              (JStr Sample.GRINNING) (lit "stickers/file_1.tgs")
              Sample.NOT_GZIP Sample.GRINNING
              (External (lit "BadGzipFile")
                 (lit "Not a gzipped file (b'no')")))
    as [_ [Hc Hp]].
  - reflexivity.
  - reflexivity.
  - reflexivity.
  - left. reflexivity.
  - split; [exact Hc|]. rewrite Hp. reflexivity.
Defined.

(** C8 is not met by the code: the 22 bytes [GZ_EMPTY] are the gzip
    compression of the JSON document [{}].  [convert_tgs_to_lottie]
    decompresses and parses them without error and returns the empty
    object; the test of line 142 takes it for a failure, so the branch
    that line 146 comments as the fallback for a failed conversion is
    taken: the bytes are kept as they are under extension [.tgs],
    nothing is serialized, and what is written does not parse as the
    document. *)
Theorem empty_document_not_converted :
  @gzip_decompress Sample.lib Sample.GZ_EMPTY = Ok Sample.TEXT_EMPTY
  /\ @json_loads Sample.lib Sample.TEXT_EMPTY = Ok (JDict [])
  /\ convert_tgs_to_lottie (L := Sample.lib) Sample.GZ_EMPTY = ret (JDict [])
  /\ convert_sticker (L := Sample.lib) true (lit "WEBP") true Sample.GZ_EMPTY
     = ret (lit ".tgs", Sample.GZ_EMPTY)
  /\ @json_loads Sample.lib Sample.GZ_EMPTY <> Ok (JDict []).
Proof.
  destruct (convert_sticker_parsed (L := Sample.lib) (lit "WEBP")
              Sample.GZ_EMPTY (text := Sample.TEXT_EMPTY) (doc := JDict [])
              eq_refl eq_refl) as [Hc Hs].
  repeat split; try reflexivity; try assumption.
  vm_compute. discriminate.
Qed.

(** ** File names *)

(** C10: when the emoji field of a sticker is absent or is the empty
    string, the file is written as [NNN_sticker] followed by the
    extension; when it is a non-empty string made only of characters
    the sanitizer removes (the nine illegal characters, and white space
    that ends up at the ends), the name part is empty and the file is
    written as [NNN_] followed by the extension. *)
Theorem placeholder_only_for_missing_emoji (W : World) (pack_dir : str)
    (i : nat) (ext : str) (data : bytes) :
  (forall kvs emoji,
      py_get (JDict kvs) (lit "emoji") (JStr []) = Ok emoji ->
      assoc (lit "emoji") kvs = None
      \/ assoc (lit "emoji") kvs = Some (JStr []) ->
      save_sticker W pack_dir i emoji ext data
      = do_write_bytes W (S i)
          (path_join pack_dir (format_03d (i + 1) ++ lit "_sticker" ++ ext))
          data)
  /\ (forall s,
      s <> [] ->
      forallb (fun c => illegal_char c || isspace c) s = true ->
      save_sticker W pack_dir i (JStr s) ext data
      = do_write_bytes W (S i)
          (path_join pack_dir (format_03d (i + 1) ++ lit "_" ++ ext)) data).
Proof.
  split.
  - intros kvs emoji Hg Ha.
    assert (E : emoji = JStr []).
    { unfold py_get in Hg. destruct Ha as [Ha | Ha]; rewrite Ha in Hg;
        now injection Hg. }
    subst emoji. unfold save_sticker.
    change (emoji_or_sticker (JStr [])) with (JStr (lit "sticker")).
    unfold sanitize_value, lift. rewrite bind_nil_ok.
    change (sanitize_filename (lit "sticker")) with (lit "sticker").
    reflexivity.
  - intros s Hs Hrm. unfold save_sticker.
    assert (E : emoji_or_sticker (JStr s) = JStr s).
    { unfold emoji_or_sticker. simpl. now destruct s. }
    rewrite E. unfold sanitize_value, lift.
    now rewrite (sanitize_filename_removed s Hrm), bind_nil_ok.
Qed.

(** The theorem of C10 at the third sticker of the sample pack, which
    has no emoji, and at an emoji field of two illegal characters. *)
Lemma placeholder_only_for_missing_emoji_witness :
  save_sticker Sample.world_ok Sample.PACK_DIR 2 (JStr []) (lit ".webp")
    Sample.WEBP
  = do_write_bytes Sample.world_ok 3
      (lit "downloads/Foo Pack (Foo)/003_sticker.webp") Sample.WEBP
  /\ save_sticker Sample.world_ok Sample.PACK_DIR 2 (JStr (lit "?*"))
       (lit ".webp") Sample.WEBP
     = do_write_bytes Sample.world_ok 3
         (lit "downloads/Foo Pack (Foo)/003_.webp") Sample.WEBP.
Proof.
  destruct (placeholder_only_for_missing_emoji Sample.world_ok Sample.PACK_DIR
              2 (lit ".webp") Sample.WEBP) as [H1 H2].
  split.
  - apply (H1 [(lit "file_id", JStr (lit "AAA3"))] (JStr []));
      [reflexivity | left; reflexivity].
  - apply (H2 (lit "?*")); [discriminate | reflexivity].
Defined.

(** *** The numeric prefix determines the sticker *)

Lemma read_nat_uint_digits (d : Decimal.uint) (acc : nat) (rest : str) :
  read_nat acc (uint_digits d ++ rest) = read_nat (Nat.of_uint_acc d acc) rest.
Proof.
  revert acc; induction d; intros acc; simpl; [reflexivity| ..];
    rewrite IHd, Nat.tail_mul_spec; do 2 f_equal;
    unfold Pos.to_nat; simpl; lia.
Qed.

Lemma read_nat_zeros (k : nat) (rest : str) :
  read_nat 0 (repeat 48%N k ++ rest) = read_nat 0 rest.
Proof. induction k; simpl; [reflexivity | exact IHk]. Qed.

Lemma read_nat_format_03d (n : nat) (rest : str) :
  read_nat 0 (format_03d n ++ lit "_" ++ rest) = n.
Proof.
  unfold format_03d, str_of_nat.
  rewrite <- app_assoc, read_nat_zeros, read_nat_uint_digits. simpl.
  apply Unsigned.of_to.
Qed.

Lemma uint_digits_are_digits (d : Decimal.uint) :
  forallb is_ascii_digit (uint_digits d) = true.
Proof. induction d; simpl; auto. Qed.

Lemma format_03d_head (n : nat) :
  exists c rest, format_03d n = c :: rest /\ is_ascii_digit c = true.
Proof.
  unfold format_03d.
  pose proof (uint_digits_are_digits (Nat.to_uint n)) as Hd.
  fold (str_of_nat n) in Hd.
  destruct (3 - List.length (str_of_nat n)) as [|k] eqn:Hk.
  - destruct (str_of_nat n) as [|c rest]; [simpl in Hk; lia|].
    simpl in Hd. apply andb_true_iff in Hd. exists c, rest. tauto.
  - simpl. eexists _, _. split; reflexivity.
Qed.

Lemma sticker_filename_index (i j : nat) (n e n' e' : str) :
  sticker_filename i n e = sticker_filename j n' e' -> i = j.
Proof.
  unfold sticker_filename. intros H.
  apply (f_equal (read_nat 0)) in H.
  rewrite !read_nat_format_03d in H. lia.
Qed.

Lemma sticker_filename_relative (i : nat) (n e : str) :
  startswith (lit "/") (sticker_filename i n e) = false.
Proof.
  unfold sticker_filename.
  destruct (format_03d_head (i + 1)) as [c [rest [E Hc]]]. rewrite E.
  change (N.eqb 47 c && true = false).
  destruct (N.eqb_spec 47 c); [subst c; discriminate | reflexivity].
Qed.

Lemma path_join_relative (a : str) :
  exists prefix, forall b, startswith (lit "/") b = false ->
                           path_join a b = prefix ++ b.
Proof.
  unfold path_join.
  destruct (negb (nonempty a) || endswith (lit "/") a).
  - exists a. intros b' ->. reflexivity.
  - exists (a ++ lit "/"). intros b' ->. now rewrite <- app_assoc.
Qed.

Lemma path_join_inj (a b b' : str) :
  startswith (lit "/") b = false ->
  startswith (lit "/") b' = false ->
  path_join a b = path_join a b' -> b = b'.
Proof.
  intros Hb Hb' H.
  destruct (path_join_relative a) as [prefix Hp].
  rewrite (Hp b Hb), (Hp b' Hb') in H. now apply app_inv_head in H.
Qed.

Lemma sticker_path_index (pack_dir : str) (i j : nat) (n e n' e' : str) :
  path_join pack_dir (sticker_filename i n e)
  = path_join pack_dir (sticker_filename j n' e') -> i = j.
Proof.
  intros H. apply path_join_inj in H; try apply sticker_filename_relative.
  now apply sticker_filename_index in H.
Qed.

Lemma manifest_path_differs (pack_dir : str) (i : nat) (n e : str) :
  path_join pack_dir (lit "pack_info.txt")
  <> path_join pack_dir (sticker_filename i n e).
Proof.
  intros H. apply path_join_inj in H;
    [| reflexivity | apply sticker_filename_relative].
  unfold sticker_filename in H.
  destruct (format_03d_head (i + 1)) as [c [rest [E Hc]]].
  rewrite E in H. injection H as Hh _. subst c. discriminate.
Qed.

Lemma files_named_from (pack_dir : str) (items : list json) :
  forall i files,
    files_named pack_dir i items files ->
    List.length files = List.length items
    /\ forall f, In f files ->
                 exists k n e, i <= k
                               /\ f = path_join pack_dir (sticker_filename k n e).
Proof.
  induction items as [|s items IH]; intros i [|f files] H; simpl in H;
    try contradiction.
  - split; [reflexivity | intros f []].
  - destruct H as [[emoji [n [e [_ [_ Hf]]]]] H].
    destruct (IH _ _ H) as [Hl Hin]. split; [simpl; now rewrite Hl|].
    intros f' [<- | Hf'].
    + exists i, n, e. split; [lia | exact Hf].
    + destruct (Hin f' Hf') as [k [n' [e' [Hk E]]]].
      exists k, n', e'. split; [lia | exact E].
Qed.

Lemma files_named_nodup (pack_dir : str) (items : list json) :
  forall i files, files_named pack_dir i items files -> NoDup files.
Proof.
  induction items as [|s items IH]; intros i [|f files] H; simpl in H;
    try contradiction; [constructor|].
  destruct H as [[emoji [n [e [_ [_ Hf]]]]] H]. constructor.
  - intros Hin.
    destruct (proj2 (files_named_from _ _ _ _ H) f Hin)
      as [k [n' [e' [Hk E]]]].
    rewrite Hf in E. change (format_03d (i + 1) ++ lit "_" ++ n ++ e)
      with (sticker_filename i n e) in E.
    apply sticker_path_index in E. lia.
  - exact (IH _ _ H).
Qed.

(** *** The loop body, case by case *)

(** One step of symbolic execution: split on the result of the next
    library call or lookup. *)
Ltac lift_step :=
  unfold lift;
  match goal with
  | |- context [bind ([], ?r) _] =>
      let E := fresh "E" in
      destruct r eqn:E;
      [rewrite bind_nil_ok; cbv beta | rewrite bind_pair_raise]
  end.

Lemma fetch_sticker_cases {L : Library} (W : World) (TOKEN : str)
    (i : nat) (sticker : json) :
  (exists e, fetch_sticker W TOKEN i sticker = ([], Raise e))
  \/ (exists msg, fetch_sticker W TOKEN i sticker = ([TqdmWrite msg], Ok None))
  \/ (exists emoji file_path data,
        fetch_sticker W TOKEN i sticker
        = ([], Ok (Some (emoji, file_path, data)))
        /\ py_get sticker (lit "emoji") (JStr []) = Ok emoji).
Proof.
  unfold fetch_sticker.
  lift_step; [|left; eauto].
  lift_step; [|left; eauto].
  lift_step; [|left; eauto].
  lift_step; [|left; eauto].
  lift_step; [|left; eauto].
  match goal with |- context [negb (truthy ?ok)] =>
    destruct (negb (truthy ok)) end.
  - right; left. eexists. reflexivity.
  - lift_step; [|left; eauto].
    lift_step; [|left; eauto].
    lift_step; [|left; eauto].
    match goal with |- context [negb (Z.eqb ?c 200)] =>
      destruct (negb (Z.eqb c 200)) end.
    + right; left. eexists. reflexivity.
    + right; right. eexists _, _, _. split; reflexivity.
Qed.

Lemma binary_writes_app (t1 t2 : list event) :
  binary_writes (t1 ++ t2) = binary_writes t1 ++ binary_writes t2.
Proof. apply flat_map_app. Qed.

Lemma sticker_files_app (t1 t2 : list event) :
  sticker_files (t1 ++ t2) = sticker_files t1 ++ sticker_files t2.
Proof. unfold sticker_files. now rewrite binary_writes_app, map_app. Qed.

(** Whatever happens in the loop body, its events are messages,
    followed by at most one write; after a write the body ends
    normally, and the name of the file is the one of lines 166-168. *)
Lemma process_sticker_shape {L : Library} (W : World) (TOKEN : str)
    (convert_tgs : bool) (static_format pack_dir : str)
    (i : nat) (sticker : json) :
  exists t,
    forallb is_message t = true
    /\ ((exists r,
           process_sticker W TOKEN convert_tgs static_format pack_dir i sticker
           = (t, r))
        \/ (exists emoji name ext c,
               py_get sticker (lit "emoji") (JStr []) = Ok emoji
               /\ sanitize_value (emoji_or_sticker emoji) = Ok name
               /\ process_sticker W TOKEN convert_tgs static_format pack_dir
                    i sticker
                  = (t ++ [WriteBytes
                             (path_join pack_dir (sticker_filename i name ext))
                             c],
                     Ok tt))).
Proof.
  unfold process_sticker.
  destruct (fetch_sticker_cases W TOKEN i sticker)
    as [[e E] | [[msg E] | [emoji [fp [data [E He]]]]]]; rewrite E.
  - exists []. split; [reflexivity | left; eexists; reflexivity].
  - exists [TqdmWrite msg]. split; [reflexivity | left; eexists; reflexivity].
  - rewrite bind_nil_ok. cbv beta iota.
    destruct fp as [| | | |fp| |];
      try (exists []; split; [reflexivity | left; eexists; reflexivity]).
    unfold py_endswith, lift. rewrite bind_nil_ok.
    pose proof (convert_sticker_messages convert_tgs static_format
                  (endswith (lit ".tgs") fp) data) as Hw.
    destruct (convert_sticker convert_tgs static_format
                (endswith (lit ".tgs") fp) data) as [t [[ext c]|e]];
      simpl fst in Hw; exists t; (split; [exact Hw|]).
    + rewrite bind_pair. cbv beta. unfold save_sticker. cbn [fst snd].
      destruct (sanitize_value (emoji_or_sticker emoji)) as [name|e] eqn:Hn;
        unfold lift.
      * rewrite bind_nil_ok. unfold do_write_bytes.
        destruct (write_binary_file W (S i)
                    (path_join pack_dir (sticker_filename i name ext)) c).
        -- left. eexists. simpl. now rewrite app_nil_r.
        -- right. exists emoji, name, ext, c. repeat split; assumption.
      * left. eexists. simpl. now rewrite app_nil_r.
    + left. eexists. reflexivity.
Qed.

Lemma saved_file {L : Library} (W : World) (TOKEN : str)
    (convert_tgs : bool) (static_format pack_dir : str)
    (i : nat) (sticker : json) :
  saved W TOKEN convert_tgs static_format pack_dir i sticker ->
  exists t emoji name ext c,
    forallb is_message t = true
    /\ py_get sticker (lit "emoji") (JStr []) = Ok emoji
    /\ sanitize_value (emoji_or_sticker emoji) = Ok name
    /\ process_sticker W TOKEN convert_tgs static_format pack_dir i sticker
       = (t ++ [WriteBytes (path_join pack_dir (sticker_filename i name ext))
                  c],
          Ok tt).
Proof.
  intros [t' [E Hw]].
  destruct (process_sticker_shape W TOKEN convert_tgs static_format pack_dir
              i sticker) as [t [Hm [[r E'] | [emoji [n [e [c H]]]]]]].
  - rewrite E in E'. injection E' as -> _.
    destruct (messages_write_nothing t Hm) as [Hb _]. contradiction.
  - exists t, emoji, n, e, c. tauto.
Qed.

Lemma skipped_process {L : Library} (W : World) (TOKEN : str)
    (convert_tgs : bool) (static_format pack_dir : str)
    (i : nat) (sticker : json) :
  skipped W TOKEN i sticker ->
  exists reason,
    (reason = lit "Failed to get file path for sticker "
     \/ reason = lit "Failed to download sticker ")
    /\ process_sticker W TOKEN convert_tgs static_format pack_dir i sticker
       = ([TqdmWrite (reason ++ str_of_nat (i + 1))], Ok tt).
Proof.
  unfold process_sticker, fetch_sticker.
  intros [[fid [emoji [r [fd [ok [H1 [H2 [H3 [H4 [H5 H6]]]]]]]]]]
         |[fid [emoji [r [fd [ok [res0 [fp [sd
            [H1 [H2 [H3 [H4 [H5 [H6 [H7 [H8 [H9 H10]]]]]]]]]]]]]]]]]].
  - eexists. split; [left; reflexivity|].
    rewrite H1. unfold lift. rewrite bind_nil_ok. cbv beta.
    rewrite H2, bind_nil_ok. cbv beta.
    rewrite H3, bind_nil_ok. cbv beta.
    rewrite H4, bind_nil_ok. cbv beta.
    rewrite H5, bind_nil_ok. cbv beta.
    rewrite H6. reflexivity.
  - eexists. split; [right; reflexivity|].
    rewrite H1. unfold lift. rewrite bind_nil_ok. cbv beta.
    rewrite H2, bind_nil_ok. cbv beta.
    rewrite H3, bind_nil_ok. cbv beta.
    rewrite H4, bind_nil_ok. cbv beta.
    rewrite H5, bind_nil_ok. cbv beta.
    rewrite H6. cbn [negb].
    rewrite H7, bind_nil_ok. cbv beta.
    rewrite H8, bind_nil_ok. cbv beta.
    rewrite H9, bind_nil_ok. cbv beta.
    apply Z.eqb_neq in H10. rewrite H10. reflexivity.
Qed.

(** *** The loop *)

Lemma iterate_stickers_app {L : Library} (W : World) (TOKEN : str)
    (convert_tgs : bool) (static_format pack_dir : str)
    (l1 l2 : list json) :
  forall i,
    iterate_stickers W TOKEN convert_tgs static_format pack_dir i (l1 ++ l2)
    = (iterate_stickers W TOKEN convert_tgs static_format pack_dir i l1 ;;;
       iterate_stickers W TOKEN convert_tgs static_format pack_dir
         (i + List.length l1) l2).
Proof.
  induction l1 as [|s l1 IH]; intros i;
    cbn [iterate_stickers app List.length].
  - now rewrite bind_ret, Nat.add_0_r.
  - rewrite bind_assoc, IH. now rewrite <- Nat.add_succ_comm.
Qed.

(** An exception in the loop body ends the loop: the remaining
    stickers are not visited. *)
Lemma iterate_stickers_raise {L : Library} (W : World) (TOKEN : str)
    (convert_tgs : bool) (static_format pack_dir : str)
    (i : nat) (sticker : json) (rest : list json) (t : list event) (e : exn) :
  process_sticker W TOKEN convert_tgs static_format pack_dir i sticker
  = (t, Raise e) ->
  iterate_stickers W TOKEN convert_tgs static_format pack_dir i
    (sticker :: rest) = (t, Raise e).
Proof. intros H. simpl. now rewrite H. Qed.

Lemma text_files_app (t1 t2 : list event) :
  text_files (t1 ++ t2) = text_files t1 ++ text_files t2.
Proof. apply flat_map_app. Qed.

Lemma iterate_saved {L : Library} (W : World) (TOKEN : str)
    (convert_tgs : bool) (static_format pack_dir : str) (items : list json) :
  forall i,
    all_from (saved W TOKEN convert_tgs static_format pack_dir) i items ->
    exists t,
      iterate_stickers W TOKEN convert_tgs static_format pack_dir i items
      = (t, Ok tt)
      /\ files_named pack_dir i items (sticker_files t)
      /\ text_files t = [].
Proof.
  induction items as [|s items IH]; intros i H; simpl in H.
  - exists []. repeat split.
  - destruct H as [Hs H]. destruct (IH _ H) as [t2 [E2 [Hn Hx]]].
    destruct (saved_file Hs) as [t1 [emoji [n [e [c [Hm [Hg [Hsan E1]]]]]]]].
    destruct (messages_write_nothing t1 Hm) as [Hb [Ht _]].
    exists ((t1 ++ [WriteBytes (path_join pack_dir (sticker_filename i n e)) c])
            ++ t2).
    split; [|split].
    + simpl. now rewrite E1, bind_pair, E2.
    + rewrite !sticker_files_app. unfold sticker_files at 1. rewrite Hb.
      simpl. split; [|exact Hn]. exists emoji, n, e. auto.
    + rewrite !text_files_app, Ht, Hx. reflexivity.
Qed.

Lemma iterate_skipped_or_saved {L : Library} (W : World) (TOKEN : str)
    (convert_tgs : bool) (static_format pack_dir : str) (items : list json) :
  forall i,
    all_from (fun i s =>
                skipped W TOKEN i s
                \/ saved W TOKEN convert_tgs static_format pack_dir i s)
      i items ->
    exists t,
      iterate_stickers W TOKEN convert_tgs static_format pack_dir i items
      = (t, Ok tt).
Proof.
  induction items as [|s items IH]; intros i H; simpl in H.
  - exists []. reflexivity.
  - destruct H as [Hs H]. destruct (IH _ H) as [t2 E2]. simpl.
    destruct Hs as [Hs | [t1 [E1 _]]].
    + destruct (skipped_process convert_tgs static_format pack_dir Hs)
        as [reason [_ E1]].
      rewrite E1, bind_pair, E2. eexists. reflexivity.
    + rewrite E1, bind_pair, E2. eexists. reflexivity.
Qed.

(** *** The run around the loop *)

Lemma run_prepared {L : Library} (W : World)
    (pack_url : str) (convert_tgs : bool) (static_format base_dir : str)
    (TOKEN pack_name : str) (pack_info : json) (title : str)
    (items : list json) :
  prepared W pack_url convert_tgs static_format base_dir TOKEN pack_name
    pack_info title items ->
  let pack_dir := pack_dir_of base_dir (sanitize_filename title) pack_name in
  let loop :=
    iterate_stickers W TOKEN convert_tgs static_format pack_dir 0 items in
  download_sticker_pack W pack_url convert_tgs static_format base_dir
  = (preamble pack_url convert_tgs static_format base_dir pack_name pack_info
       title items
     ++ fst loop ++ [run_end pack_dir (snd loop)],
     Returned).
Proof.
  intros [HT [Hne [Hf [Hn [[r [data [ok [Hr [Hd [Hok [Htr Hres]]]]]]]
           [Hst [Hti [Hmk Hwr]]]]]]]] pack_dir loop.
  unfold download_sticker_pack. rewrite HT.
  destruct TOKEN as [|c0 TOKEN']; [discriminate|].
  rewrite Hf. cbn [negb]. rewrite Hn. unfold try_body.
  rewrite Hr. unfold lift. rewrite bind_nil_ok. cbv beta.
  rewrite Hd, bind_nil_ok. cbv beta.
  rewrite Hok, bind_nil_ok. cbv beta.
  rewrite Htr. cbn [negb].
  rewrite Hres, bind_nil_ok. cbv beta.
  rewrite Hst, bind_nil_ok. cbv beta.
  rewrite Hti, bind_nil_ok. cbv beta.
  unfold sanitize_value. rewrite bind_nil_ok. cbv beta zeta.
  unfold do_makedirs. rewrite Hmk, bind_emit.
  unfold py_len. rewrite bind_nil_ok. cbv beta. rewrite bind_emit.
  unfold do_write_text. rewrite Hwr, bind_emit.
  unfold py_iter. rewrite bind_nil_ok. cbv beta.
  unfold preamble. subst loop pack_dir.
  destruct (iterate_stickers W (c0 :: TOKEN') convert_tgs static_format
              (pack_dir_of base_dir (sanitize_filename title) pack_name) 0
              items) as [t [[]|e]]; reflexivity.
Qed.

(** ** The run *)

Lemma sticker_files_messages (t : list event) :
  forallb is_message t = true -> sticker_files t = [].
Proof.
  intros H. unfold sticker_files.
  now rewrite (proj1 (messages_write_nothing t H)).
Qed.

(** C5: in a prepared run over [n] stickers that are all fetched and
    written, the run returns after writing exactly [n] sticker files
    and one manifest; the file of the [k]-th sticker (from 1, in the
    order of the metadata) is, inside the pack directory, [k] formatted
    by [{:03d}], an underscore, the sanitized emoji (or [sticker]) and
    an extension; all the files written are pairwise distinct, and two
    file names with different numbers are different. *)
Theorem all_saved_run {L : Library} (W : World)
    (pack_url : str) (convert_tgs : bool) (static_format base_dir : str)
    (TOKEN pack_name : str) (pack_info : json) (title : str)
    (items : list json) :
  prepared W pack_url convert_tgs static_format base_dir TOKEN pack_name
    pack_info title items ->
  let pack_dir := pack_dir_of base_dir (sanitize_filename title) pack_name in
  all_from (saved W TOKEN convert_tgs static_format pack_dir) 0 items ->
  let run :=
    download_sticker_pack W pack_url convert_tgs static_format base_dir in
  snd run = Returned
  /\ List.length (sticker_files (fst run)) = List.length items
  /\ files_named pack_dir 0 items (sticker_files (fst run))
  /\ text_files (fst run) = [path_join pack_dir (lit "pack_info.txt")]
  /\ NoDup (text_files (fst run) ++ sticker_files (fst run))
  /\ (forall i j name ext name' ext',
         i <> j ->
         sticker_filename i name ext <> sticker_filename j name' ext').
Proof.
  intros Hp pack_dir Hall run. subst run.
  rewrite (run_prepared Hp). fold pack_dir.
  destruct (iterate_saved W TOKEN convert_tgs static_format pack_dir items 0
              Hall) as [t [E [Hn Hx]]].
  rewrite E. cbn [fst snd].
  assert (Hs : sticker_files
                 (preamble pack_url convert_tgs static_format base_dir
                    pack_name pack_info title items
                  ++ t ++ [run_end pack_dir (Ok tt)])
               = sticker_files t).
  { rewrite !sticker_files_app. simpl. now rewrite app_nil_r. }
  assert (Ht : text_files
                 (preamble pack_url convert_tgs static_format base_dir
                    pack_name pack_info title items
                  ++ t ++ [run_end pack_dir (Ok tt)])
               = [path_join pack_dir (lit "pack_info.txt")]).
  { rewrite !text_files_app, Hx. reflexivity. }
  rewrite Hs, Ht.
  destruct (files_named_from _ _ _ _ Hn) as [Hl Hin].
  repeat split; try assumption.
  - simpl. constructor; [|exact (files_named_nodup _ _ _ _ Hn)].
    intros Hm. destruct (Hin _ Hm) as [k [n [e [_ Ek]]]].
    exact (manifest_path_differs _ _ _ _ Ek).
  - intros i j n e n' e' Hij Heq. apply Hij.
    exact (sticker_filename_index _ _ _ _ _ _ Heq).
Qed.

Lemma sample_prepared (table : list (str * (str * bytes)))
    (missing : list str) (full : list nat) :
  prepared (L := Sample.lib)
    (Sample.world table Sample.metadata_ok missing full)
    Sample.URL false (lit "WEBP") (lit "downloads") Sample.TOKEN (lit "Foo")
    Sample.pack_info (lit "Foo Pack") Sample.stickers.
Proof.
  unfold prepared. repeat split; try reflexivity.
  eexists _, _, _. repeat split; reflexivity.
Qed.

(** The theorem of C5 at the sample pack of three stickers, one
    animated and two static, all served and written. *)
Lemma all_saved_run_witness :
  sticker_files
    (fst (download_sticker_pack (L := Sample.lib) Sample.world_ok Sample.URL
            false (lit "WEBP") (lit "downloads")))
  = [lit "downloads/Foo Pack (Foo)/001_" ++ Sample.GRINNING ++ lit ".tgs";
     lit "downloads/Foo Pack (Foo)/002_" ++ Sample.PARTY ++ lit ".webp";
     lit "downloads/Foo Pack (Foo)/003_sticker.webp"]
  /\ List.length
       (sticker_files
          (fst (download_sticker_pack (L := Sample.lib) Sample.world_ok
                  Sample.URL false (lit "WEBP") (lit "downloads"))))
     = 3
  /\ NoDup
       (text_files
          (fst (download_sticker_pack (L := Sample.lib) Sample.world_ok
                  Sample.URL false (lit "WEBP") (lit "downloads")))
        ++ sticker_files
             (fst (download_sticker_pack (L := Sample.lib) Sample.world_ok
                     Sample.URL false (lit "WEBP") (lit "downloads")))).
Proof.
  split; [reflexivity|].
  destruct (@all_saved_run Sample.lib Sample.world_ok Sample.URL false
              (lit "WEBP") (lit "downloads") Sample.TOKEN (lit "Foo")
              Sample.pack_info (lit "Foo Pack") Sample.stickers
              (sample_prepared Sample.files [] []))
    as [_ [Hl [_ [_ [Hd _]]]]].
  - repeat split; (eexists; split; [reflexivity | discriminate]).
  - split; [exact Hl | exact Hd].
Defined.

(** C4: a sticker whose file resolution answers a non-ok envelope, or
    whose download answers a status other than 200, is skipped: the
    loop body prints one line and the loop goes on with the next
    sticker.  A prepared run in which every sticker is either skipped
    in that way or saved returns after printing the completion
    message; and when it has three stickers of which the first and the
    third are saved and the download of the second fails, exactly two
    sticker files are written. *)
Theorem fetch_failure_skips_sticker {L : Library} (W : World)
    (pack_url : str) (convert_tgs : bool) (static_format base_dir : str)
    (TOKEN pack_name : str) (pack_info : json) (title : str)
    (items : list json) :
  prepared W pack_url convert_tgs static_format base_dir TOKEN pack_name
    pack_info title items ->
  let pack_dir := pack_dir_of base_dir (sanitize_filename title) pack_name in
  all_from (fun i s =>
              skipped W TOKEN i s
              \/ saved W TOKEN convert_tgs static_format pack_dir i s)
    0 items ->
  let run :=
    download_sticker_pack W pack_url convert_tgs static_format base_dir in
  (forall i sticker rest,
      skipped W TOKEN i sticker ->
      exists reason,
        (reason = lit "Failed to get file path for sticker "
         \/ reason = lit "Failed to download sticker ")
        /\ process_sticker W TOKEN convert_tgs static_format pack_dir i
             sticker
           = ([TqdmWrite (reason ++ str_of_nat (i + 1))], Ok tt)
        /\ iterate_stickers W TOKEN convert_tgs static_format pack_dir i
             (sticker :: rest)
           = (emit (TqdmWrite (reason ++ str_of_nat (i + 1))) ;;;
              iterate_stickers W TOKEN convert_tgs static_format pack_dir
                (S i) rest))
  /\ snd run = Returned
  /\ last (fst run) (Print []) = complete_message pack_dir
  /\ (forall s1 s2 s3,
         items = [s1; s2; s3] ->
         saved W TOKEN convert_tgs static_format pack_dir 0 s1 ->
         download_fails W TOKEN 1 s2 ->
         saved W TOKEN convert_tgs static_format pack_dir 2 s3 ->
         List.length (sticker_files (fst run)) = 2).
Proof.
  intros Hp pack_dir Hall run. subst run.
  rewrite (run_prepared Hp). fold pack_dir. cbn [fst snd].
  split; [|split; [reflexivity|split]].
  - intros i sticker rest Hs.
    destruct (skipped_process convert_tgs static_format pack_dir Hs)
      as [reason [Hreason E]].
    exists reason. split; [exact Hreason|]. split; [exact E|].
    cbn [iterate_stickers]. now rewrite E.
  - destruct (iterate_skipped_or_saved W TOKEN convert_tgs static_format
                pack_dir items 0 Hall) as [t E].
    rewrite E. cbn [fst snd run_end].
    rewrite !app_assoc. apply last_last.
  - intros s1 s2 s3 -> H1 H2 H3.
    destruct (saved_file H1) as [t1 [e1 [n1 [x1 [c1 [M1 [_ [_ E1]]]]]]]].
    destruct (saved_file H3) as [t3 [e3 [n3 [x3 [c3 [M3 [_ [_ E3]]]]]]]].
    destruct (skipped_process convert_tgs static_format pack_dir
                (or_intror H2 : skipped W TOKEN 1 s2)) as [reason [_ E2]].
    cbn [iterate_stickers]. rewrite E1, bind_pair, E2, bind_pair, E3.
    cbn [fst snd bind ret]. rewrite !sticker_files_app.
    rewrite (sticker_files_messages t1 M1), (sticker_files_messages t3 M3).
    reflexivity.
Qed.

(** The theorem of C4 at the sample pack when the download of the
    second sticker answers 404. *)
Lemma fetch_failure_skips_sticker_witness :
  snd (download_sticker_pack (L := Sample.lib) Sample.world_404 Sample.URL
         false (lit "WEBP") (lit "downloads")) = Returned
  /\ List.length
       (sticker_files
          (fst (download_sticker_pack (L := Sample.lib) Sample.world_404
                  Sample.URL false (lit "WEBP") (lit "downloads"))))
     = 2
  /\ sticker_files
       (fst (download_sticker_pack (L := Sample.lib) Sample.world_404
               Sample.URL false (lit "WEBP") (lit "downloads")))
     = [lit "downloads/Foo Pack (Foo)/001_" ++ Sample.GRINNING ++ lit ".tgs";
        lit "downloads/Foo Pack (Foo)/003_sticker.webp"].
Proof.
  assert (H2 : download_fails (L := Sample.lib) Sample.world_404 Sample.TOKEN
                 1 Sample.STICKER2).
  { unfold download_fails. eexists _, _, _, _, _, _, _, _.
    repeat split; try reflexivity. discriminate. }
  assert (H1 : saved (L := Sample.lib) Sample.world_404 Sample.TOKEN false
                 (lit "WEBP") Sample.PACK_DIR 0 Sample.STICKER1)
    by (eexists; split; [reflexivity | discriminate]).
  assert (H3 : saved (L := Sample.lib) Sample.world_404 Sample.TOKEN false
                 (lit "WEBP") Sample.PACK_DIR 2 Sample.STICKER3)
    by (eexists; split; [reflexivity | discriminate]).
  destruct (@fetch_failure_skips_sticker Sample.lib Sample.world_404
              Sample.URL false (lit "WEBP") (lit "downloads") Sample.TOKEN
              (lit "Foo") Sample.pack_info (lit "Foo Pack") Sample.stickers
              (sample_prepared Sample.files [lit "stickers/file_2.webp"] []))
    as [_ [Hr [_ Hc]]].
  - repeat split; [right; exact H1 | left; right; exact H2 | right; exact H3].
  - split; [exact Hr|]. split; [|reflexivity].
    exact (Hc Sample.STICKER1 Sample.STICKER2 Sample.STICKER3 eq_refl
             H1 H2 H3).
Defined.

(** C2, as the code has it: when the write of one sticker raises, the
    exception leaves the loop and is caught by the handler of line 176.
    The run prints the message of the exception and returns; the
    stickers after the failing one are not visited, so the trace does
    not depend on them, and the only sticker files are those written
    before. *)
Theorem write_failure_ends_loop {L : Library} (W : World)
    (pack_url : str) (convert_tgs : bool) (static_format base_dir : str)
    (TOKEN pack_name : str) (pack_info : json) (title : str)
    (before : list json) (sticker : json) (rest : list json)
    (tb : list event) (emoji : json) (file_path : str) (data : bytes)
    (t : list event) (ext : str) (c : bytes) (name : str) (e : exn) :
  prepared W pack_url convert_tgs static_format base_dir TOKEN pack_name
    pack_info title (before ++ sticker :: rest) ->
  let pack_dir := pack_dir_of base_dir (sanitize_filename title) pack_name in
  let i := List.length before in
  iterate_stickers W TOKEN convert_tgs static_format pack_dir 0 before
  = (tb, Ok tt) ->
  fetched W TOKEN i sticker emoji file_path data ->
  convert_sticker convert_tgs static_format
    (endswith (lit ".tgs") file_path) data = (t, Ok (ext, c)) ->
  sanitize_value (emoji_or_sticker emoji) = Ok name ->
  write_binary_file W (S i)
    (path_join pack_dir (sticker_filename i name ext)) c = Some e ->
  let run :=
    download_sticker_pack W pack_url convert_tgs static_format base_dir in
  run = (preamble pack_url convert_tgs static_format base_dir pack_name
           pack_info title (before ++ sticker :: rest)
         ++ (tb ++ t) ++ [Print (lit "Error: " ++ exn_message e)],
         Returned)
  /\ sticker_files (fst run) = sticker_files tb
  /\ exit_status (snd run) = 0%Z.
Proof.
  intros Hp pack_dir i Hb Hf Hc Hn Hw run.
  assert (Hproc : process_sticker W TOKEN convert_tgs static_format pack_dir
                    i sticker = (t, Raise e)).
  { rewrite (@process_sticker_converted L W TOKEN convert_tgs static_format
               pack_dir i sticker emoji file_path data _ _ _ name Hf Hc Hn).
    unfold do_write_bytes. rewrite Hw, bind_pair. simpl.
    now rewrite app_nil_r. }
  assert (Hloop : iterate_stickers W TOKEN convert_tgs static_format pack_dir
                    0 (before ++ sticker :: rest) = (tb ++ t, Raise e)).
  { rewrite iterate_stickers_app, Hb, bind_pair.
    change (0 + List.length before) with i.
    now rewrite (@iterate_stickers_raise L W TOKEN convert_tgs static_format
                   pack_dir i sticker rest t e Hproc). }
  assert (E : run
              = (preamble pack_url convert_tgs static_format base_dir
                   pack_name pack_info title (before ++ sticker :: rest)
                 ++ (tb ++ t) ++ [Print (lit "Error: " ++ exn_message e)],
                 Returned)).
  { subst run. rewrite (run_prepared Hp). fold pack_dir.
    now rewrite Hloop. }
  rewrite E. split; [reflexivity|]. split; [|reflexivity].
  cbn [fst]. rewrite !sticker_files_app.
  pose proof (convert_sticker_messages convert_tgs static_format
                (endswith (lit ".tgs") file_path) data) as Hm.
  rewrite Hc in Hm. cbn [fst] in Hm.
  rewrite (sticker_files_messages t Hm).
  simpl. now rewrite !app_nil_r.
Qed.

(** The theorem of C2 at the sample pack when the write of the first
    sticker fails: no sticker file is written at all. *)
Lemma write_failure_ends_loop_witness :
  download_sticker_pack (L := Sample.lib) Sample.world_full Sample.URL false
    (lit "WEBP") (lit "downloads")
  = (preamble (L := Sample.lib) Sample.URL false (lit "WEBP")
       (lit "downloads") (lit "Foo") Sample.pack_info (lit "Foo Pack")
       Sample.stickers
     ++ [Print (lit "Error: [Errno 28] No space left on device")],
     Returned)
  /\ sticker_files
       (fst (download_sticker_pack (L := Sample.lib) Sample.world_full
               Sample.URL false (lit "WEBP") (lit "downloads"))) = [].
Proof.
  destruct (@write_failure_ends_loop Sample.lib Sample.world_full Sample.URL
              false (lit "WEBP") (lit "downloads") Sample.TOKEN (lit "Foo")
              Sample.pack_info (lit "Foo Pack")
              [] Sample.STICKER1 [Sample.STICKER2; Sample.STICKER3]
              [] (JStr Sample.GRINNING) (lit "stickers/file_1.tgs")
              Sample.GZ_DOC [] (lit ".tgs") Sample.GZ_DOC Sample.GRINNING
              (External (lit "OSError")
                 (lit "[Errno 28] No space left on device"))
              (sample_prepared Sample.files [] [1]))
    as [E [Hs _]]; try reflexivity.
  split; [exact E | exact Hs].
Defined.

(** C2 as stated fails: in the sample world whose disk is full when the
    first sticker is written, the second sticker would be fetched and
    written if the loop reached it, but the run ends with the error
    message and no sticker file. *)
Lemma write_failure_aborts_run :
  process_sticker (L := Sample.lib) Sample.world_full Sample.TOKEN false
    (lit "WEBP") Sample.PACK_DIR 1 Sample.STICKER2
  = ([WriteBytes
        (lit "downloads/Foo Pack (Foo)/002_" ++ Sample.PARTY ++ lit ".webp")
        Sample.WEBP],
     Ok tt)
  /\ sticker_files
       (fst (download_sticker_pack (L := Sample.lib) Sample.world_full
               Sample.URL false (lit "WEBP") (lit "downloads"))) = []
  /\ last
       (fst (download_sticker_pack (L := Sample.lib) Sample.world_full
               Sample.URL false (lit "WEBP") (lit "downloads")))
       (Print [])
     = Print (lit "Error: [Errno 28] No space left on device").
Proof. repeat split; reflexivity. Qed.

(** C3, as the code has it: when the metadata endpoint answers with an
    envelope whose [ok] is not true, the run prints [Error: ] followed
    by the description of the envelope ([Unknown error] when it has
    none), creates no directory and no file, and returns: the exit
    status of the process is 0.  A missing credential and an invalid
    pack URL, in contrast, leave through [sys.exit(1)]. *)
Theorem metadata_failure_returns {L : Library} (W : World)
    (pack_url : str) (convert_tgs : bool) (static_format base_dir : str)
    (TOKEN pack_name : str) (r : response) (envelope : list (str * json)) :
  getenv_token W = Some TOKEN ->
  nonempty TOKEN = true ->
  str_in (str_upper static_format) valid_formats = true ->
  checked_pack_name pack_url = Ok (Some pack_name) ->
  requests_get W 0 (getStickerSet_url TOKEN) [(lit "name", JStr pack_name)]
  = Ok r ->
  json_body r = Ok (JDict envelope) ->
  truthy (match assoc (lit "ok") envelope with
          | Some v => v
          | None => JNull
          end) = false ->
  let description :=
    match assoc (lit "description") envelope with
    | Some d => d
    | None => JStr (lit "Unknown error")
    end in
  let run :=
    download_sticker_pack W pack_url convert_tgs static_format base_dir in
  run = ([Print (lit "Error: " ++ py_str description)], Returned)
  /\ made_dirs (fst run) = []
  /\ text_files (fst run) = []
  /\ sticker_files (fst run) = []
  /\ exit_status (snd run) = 0%Z
  /\ (forall url,
         checked_pack_name url = Ok None ->
         exit_status
           (snd (download_sticker_pack W url convert_tgs static_format
                   base_dir)) = 1%Z)
  /\ (forall W',
         getenv_token W' = None \/ getenv_token W' = Some [] ->
         exit_status
           (snd (download_sticker_pack W' pack_url convert_tgs static_format
                   base_dir)) = 1%Z).
Proof.
  intros HT Hne Hf Hn Hr Hd Hok description run.
  assert (E : run = ([Print (lit "Error: " ++ py_str description)], Returned)).
  { subst run. unfold download_sticker_pack. rewrite HT.
    destruct TOKEN as [|c0 TOKEN']; [discriminate|].
    rewrite Hf. cbn [negb]. rewrite Hn. unfold try_body.
    rewrite Hr. unfold lift. rewrite bind_nil_ok. cbv beta.
    rewrite Hd, bind_nil_ok. cbv beta.
    unfold py_get. rewrite bind_nil_ok. cbv beta.
    rewrite Hok. cbn [negb]. rewrite bind_nil_ok. reflexivity. }
  rewrite E. repeat split.
  - intros url Hu.
    now rewrite (invalid_pack_url_exits W url convert_tgs static_format
                   base_dir HT Hne Hf Hu).
  - intros W' [H | H]; unfold download_sticker_pack; now rewrite H.
Qed.

(** The theorem of C3 at the sample world whose metadata endpoint
    answers [ok: false] with a description. *)
Lemma metadata_failure_returns_witness :
  download_sticker_pack (L := Sample.lib) Sample.world_no_pack Sample.URL
    false (lit "WEBP") (lit "downloads")
  = ([Print (lit "Error: Bad Request: STICKERSET_INVALID")], Returned).
Proof.
  refine (proj1 (@metadata_failure_returns Sample.lib Sample.world_no_pack
                   Sample.URL false (lit "WEBP") (lit "downloads")
                   Sample.TOKEN (lit "Foo")
                   {| status_code := 200; content := [];
                      json_body := Ok Sample.metadata_error |}
                   [(lit "ok", JBool false); (lit "error_code", JInt 400);
                    (lit "description",
                     JStr (lit "Bad Request: STICKERSET_INVALID"))]
                   _ _ _ _ _ _ _)); reflexivity.
Defined.

(** C3 as stated fails: the process started on the sample world whose
    metadata endpoint answers [ok: false] prints the description and
    ends with exit status 0, while without a credential it ends with
    exit status 1. *)
Lemma metadata_failure_exit_status_zero :
  main (L := Sample.lib) Sample.world_no_pack
    [lit "sticker_downloader.py"; Sample.URL]
  = ([Print (lit "Error: Bad Request: STICKERSET_INVALID")], Returned)
  /\ exit_status
       (snd (main (L := Sample.lib) Sample.world_no_pack
               [lit "sticker_downloader.py"; Sample.URL])) = 0%Z
  /\ exit_status
       (snd (main (L := Sample.lib) Sample.world_no_token
               [lit "sticker_downloader.py"; Sample.URL])) = 1%Z.
Proof. repeat split; reflexivity. Qed.

(** * Further properties of the code *)

Unset Implicit Arguments.

(** ** More on the sanitizer *)

Lemma dropwhile_split (p : char -> bool) (s : str) :
  exists pre, s = pre ++ dropwhile p s /\ forallb p pre = true.
Proof.
  induction s as [|c s [pre [E H]]]; simpl.
  - exists []. now split.
  - destruct (p c) eqn:Hc.
    + exists (c :: pre). simpl. rewrite Hc, H. split; [now f_equal | reflexivity].
    + exists []. now split.
Qed.

Lemma dropwhile_head (p : char -> bool) (s : str) (c : char) (t : str) :
  dropwhile p s = c :: t -> p c = false.
Proof.
  induction s as [|a s IH]; simpl; [discriminate|].
  destruct (p a) eqn:Ha; [exact IH|].
  intros E. injection E as <- _. exact Ha.
Qed.

Lemma rstrip_by_prefix (p : char -> bool) (s : str) :
  exists suffix, s = rstrip_by p s ++ suffix.
Proof.
  unfold rstrip_by. destruct (dropwhile_split p (List.rev s)) as [pre [E _]].
  exists (List.rev pre).
  rewrite <- rev_app_distr, <- E. now rewrite rev_involutive.
Qed.

Lemma rstrip_by_last (p : char -> bool) (s t : str) (c : char) :
  rstrip_by p s = t ++ [c] -> p c = false.
Proof.
  unfold rstrip_by. intros E. apply (f_equal (@List.rev char)) in E.
  rewrite rev_involutive, rev_app_distr in E. simpl in E.
  exact (dropwhile_head p _ _ _ E).
Qed.

Lemma strip_by_head (p : char -> bool) (s : str) (c : char) (t : str) :
  strip_by p s = c :: t -> p c = false.
Proof.
  unfold strip_by, lstrip_by. intros E.
  destruct (rstrip_by_prefix p (dropwhile p s)) as [suffix Hs].
  rewrite E in Hs. simpl in Hs. exact (dropwhile_head p s _ _ Hs).
Qed.

Lemma strip_by_id (p : char -> bool) (s : str) :
  (forall c t, s = c :: t -> p c = false) ->
  (forall t c, s = t ++ [c] -> p c = false) ->
  strip_by p s = s.
Proof.
  intros Hh Hl. unfold strip_by, lstrip_by, rstrip_by.
  assert (E1 : dropwhile p s = s).
  { destruct s as [|c t]; [reflexivity|]. simpl.
    now rewrite (Hh c t eq_refl). }
  rewrite E1. destruct (List.rev s) as [|c r] eqn:Er.
  - apply (f_equal (@List.rev char)) in Er.
    rewrite rev_involutive in Er. now subst s.
  - assert (Es : s = List.rev r ++ [c]).
    { apply (f_equal (@List.rev char)) in Er.
      now rewrite rev_involutive in Er. }
    simpl. rewrite (Hl _ _ Es). now rewrite Es.
Qed.

Lemma filter_all_id {A} (f : A -> bool) (l : list A) :
  forallb f l = true -> List.filter f l = l.
Proof.
  induction l as [|a l IH]; simpl; [reflexivity|].
  intros H. apply andb_true_iff in H. destruct H as [Ha Hl].
  now rewrite Ha, (IH Hl).
Qed.

Lemma replace_char_absent (a b : char) (s : str) :
  ~ In a s -> replace_char a b s = s.
Proof.
  unfold replace_char. induction s as [|c s IH]; simpl; [reflexivity|].
  intros H. destruct (N.eqb_spec c a) as [->|_]; [tauto|].
  rewrite IH; [reflexivity | tauto].
Qed.

Lemma firstn_short {A} (n : nat) (l : list A) :
  List.length l <= n -> firstn n l = l.
Proof.
  revert l; induction n as [|n IH]; intros [|a l]; simpl; intros H;
    try reflexivity; [lia|].
  rewrite IH; [reflexivity | lia].
Qed.

Lemma length_filter_le {A} (f : A -> bool) (l : list A) :
  List.length (List.filter f l) <= List.length l.
Proof.
  induction l as [|a l IH]; simpl; [lia|]. destruct (f a); simpl; lia.
Qed.

Lemma length_rstrip_by_le (p : char -> bool) (s : str) :
  List.length (rstrip_by p s) <= List.length s.
Proof.
  destruct (rstrip_by_prefix p s) as [suffix E].
  rewrite E at 2. rewrite length_app. lia.
Qed.

Lemma length_dropwhile_le (p : char -> bool) (s : str) :
  List.length (dropwhile p s) <= List.length s.
Proof.
  destruct (dropwhile_split p s) as [pre [E _]].
  rewrite E at 2. rewrite length_app. lia.
Qed.

(** X1: a name that is already safe is left as it is: when a string
    has none of the nine illegal characters, no line feed, no carriage
    return, no white space at either end, and at most 50 characters,
    [sanitize_filename] returns it unchanged. *)
Theorem sanitize_filename_keeps_safe_name (x : str) :
  forallb (fun c => negb (illegal_char c)) x = true ->
  ~ In LF x ->
  ~ In CR x ->
  (forall c t, x = c :: t -> isspace c = false) ->
  (forall t c, x = t ++ [c] -> isspace c = false) ->
  List.length x <= 50 ->
  sanitize_filename x = x.
Proof.
  intros Hi Hlf Hcr Hh Hl Hn. unfold sanitize_filename, strip.
  rewrite (filter_all_id _ x Hi), (replace_char_absent LF SPACE x Hlf),
    (replace_char_absent CR SPACE x Hcr), (strip_by_id isspace x Hh Hl).
  now apply firstn_short.
Qed.

(** X1 at the title of the sample pack. *)
Lemma sanitize_filename_keeps_safe_name_witness :
  sanitize_filename (lit "Foo Pack") = lit "Foo Pack".
Proof.
  apply sanitize_filename_keeps_safe_name; try reflexivity.
  - vm_compute. intuition discriminate.
  - vm_compute. intuition discriminate.
  - intros c t E. injection E as <- _. reflexivity.
  - intros t c E.
    change (lit "Foo Pack") with (lit "Foo Pac" ++ [chr "k"]) in E.
    apply app_inj_tail in E. destruct E as [_ <-]. reflexivity.
  - vm_compute. lia.
Defined.

(** X2: the result of [sanitize_filename] never starts with white
    space; it does not end with white space either when the input has
    at most 50 characters.  Because the slice is taken after the strip,
    a longer input can give a result that ends with a space. *)
Theorem sanitize_filename_trimmed :
  (forall x c t, sanitize_filename x = c :: t -> isspace c = false)
  /\ (forall x t c,
         List.length x <= 50 ->
         sanitize_filename x = t ++ [c] -> isspace c = false)
  /\ sanitize_filename Edge.LONG_NAME = repeat (chr "a") 49 ++ [SPACE].
Proof.
  split; [|split; [|reflexivity]].
  - intros x c t E. unfold sanitize_filename, strip in E.
    set (y := replace_char CR SPACE
                (replace_char LF SPACE
                   (List.filter (fun c => negb (illegal_char c)) x))) in E.
    destruct (strip_by isspace y) as [|c' t'] eqn:Es; [discriminate|].
    simpl in E. injection E as <- _. exact (strip_by_head isspace y _ _ Es).
  - intros x t c Hn E. unfold sanitize_filename, strip in E.
    set (y := replace_char CR SPACE
                (replace_char LF SPACE
                   (List.filter (fun c => negb (illegal_char c)) x))) in E.
    assert (Hy : List.length (strip_by isspace y) <= 50).
    { unfold strip_by, lstrip_by.
      pose proof (length_rstrip_by_le isspace (dropwhile isspace y)).
      pose proof (length_dropwhile_le isspace y).
      assert (List.length y <= List.length x).
      { subst y. unfold replace_char. rewrite !length_map.
        apply length_filter_le. }
      lia. }
    rewrite (firstn_short _ _ Hy) in E.
    exact (rstrip_by_last isspace (lstrip_by isspace y) t c E).
Qed.

(** X2 at the title of the sample pack followed by a line feed, which
    is replaced by a space and stripped. *)
Lemma sanitize_filename_trimmed_witness :
  sanitize_filename (lit "Foo Pack" ++ [LF]) = lit "Foo Pac" ++ [chr "k"]
  /\ isspace (chr "k") = false.
Proof.
  split; [reflexivity|].
  apply (proj1 (proj2 sanitize_filename_trimmed)
           (lit "Foo Pack" ++ [LF]) (lit "Foo Pac") (chr "k")).
  - vm_compute. lia.
  - reflexivity.
Defined.

(** ** More on file names *)

Lemma format_03d_digits (n : nat) :
  forallb is_ascii_digit (format_03d n) = true.
Proof.
  unfold format_03d, str_of_nat. rewrite forallb_app.
  rewrite uint_digits_are_digits, andb_true_r.
  induction (3 - List.length (uint_digits (Nat.to_uint n))); simpl; auto.
Qed.

Lemma format_03d_width (n : nat) : 3 <= List.length (format_03d n).
Proof.
  unfold format_03d. cbv zeta. rewrite length_app, repeat_length.
  unfold str, char. lia.
Qed.

Lemma format_03d_width_small (n : nat) :
  n < 1000 -> List.length (format_03d n) = 3.
Proof.
  intros H.
  assert (A : forallb (fun k => Nat.eqb (List.length (format_03d k)) 3)
                (seq 0 1000) = true) by (vm_compute; reflexivity).
  rewrite forallb_forall in A. apply Nat.eqb_eq. apply A.
  apply in_seq. lia.
Qed.

(** X3: the numeric prefix of a sticker file name is made of decimal
    digits only, at least three of them and exactly three up to
    sticker 999, and reading the digits back gives the 1-based position
    of the sticker, whatever its emoji and extension are. *)
Theorem sticker_filename_prefix (i : nat) (name ext : str) :
  sticker_filename i name ext = format_03d (i + 1) ++ lit "_" ++ name ++ ext
  /\ forallb is_ascii_digit (format_03d (i + 1)) = true
  /\ 3 <= List.length (format_03d (i + 1))
  /\ (i + 1 < 1000 -> List.length (format_03d (i + 1)) = 3)
  /\ read_nat 0 (sticker_filename i name ext) = i + 1.
Proof.
  repeat split.
  - apply format_03d_digits.
  - apply format_03d_width.
  - apply format_03d_width_small.
  - apply read_nat_format_03d.
Qed.

(** X3 at the third sticker of the sample pack. *)
Lemma sticker_filename_prefix_witness :
  List.length (format_03d (2 + 1)) = 3
  /\ read_nat 0 (lit "003_sticker.webp") = 3.
Proof.
  destruct (sticker_filename_prefix 2 (lit "sticker") (lit ".webp"))
    as [_ [_ [_ [Hw Hr]]]].
  split; [apply Hw; lia | exact Hr].
Defined.

(** ** More on the identifier extractor *)

Lemma incl_split1_fst (sep : char) (s : str) : incl (fst (split1 sep s)) s.
Proof.
  induction s as [|c s IH]; simpl; [apply incl_refl|].
  destruct (N.eqb c sep); simpl; [intros x []|].
  destruct (split1 sep s) as [a b]. simpl in *.
  intros x [<- | H]; [now left | right; now apply IH].
Qed.

Lemma split1_fst_no_sep (sep : char) (s : str) :
  ~ In sep (fst (split1 sep s)).
Proof.
  induction s as [|c s IH]; simpl; [tauto|].
  destruct (N.eqb_spec c sep) as [->|Hne]; simpl; [tauto|].
  destruct (split1 sep s) as [a b]. simpl in *.
  intros [H | H]; [now apply Hne | now apply IH].
Qed.

Lemma incl_split1_snd (sep : char) (s : str) : incl (snd (split1 sep s)) s.
Proof.
  induction s as [|c s IH]; simpl; [apply incl_refl|].
  destruct (N.eqb c sep); simpl; [intros x H; now right|].
  destruct (split1 sep s) as [a b]. simpl in *.
  intros x H. right. now apply IH.
Qed.

Lemma incl_break_at_snd (p : char -> bool) (s : str) :
  incl (snd (urllib.break_at p s)) s.
Proof.
  induction s as [|c s IH]; simpl; [apply incl_refl|].
  destruct (p c); simpl; [apply incl_refl|].
  destruct (urllib.break_at p s) as [a b]. simpl in *.
  intros x H. right. now apply IH.
Qed.

Lemma incl_skipn {A} (n : nat) (l : list A) : incl (skipn n l) l.
Proof.
  revert l; induction n as [|n IH]; intros [|a l]; simpl;
    try apply incl_refl.
  intros x H. right. now apply IH.
Qed.

Lemma incl_firstn {A} (n : nat) (l : list A) : incl (firstn n l) l.
Proof. intros x H. exact (in_firstn n l x H). Qed.

Lemma incl_after_last (sep : char) (s tail : str) :
  urllib.after_last sep s = Some tail -> incl tail s.
Proof.
  revert tail; induction s as [|c s IH]; simpl; [discriminate|].
  intros tail. destruct (urllib.after_last sep s) as [r|].
  - intros E. injection E as <-. intros x H. right.
    exact (IH r eq_refl x H).
  - destruct (N.eqb c sep); [|discriminate].
    intros E. injection E as <-. intros x H. now right.
Qed.

Lemma incl_splitparams (url : str) : incl (urllib.splitparams url) url.
Proof.
  unfold urllib.splitparams.
  destruct (urllib.after_last (chr "/") url) as [tail|] eqn:E.
  - destruct (has (chr ";") tail); [|apply incl_refl].
    apply incl_app; [apply incl_firstn|].
    eapply incl_tran; [apply incl_split1_fst|].
    exact (incl_after_last _ _ _ E).
  - apply incl_split1_fst.
Qed.

Lemma split_segments (sep : char) (s seg : str) :
  In seg (split sep s) -> incl seg s /\ ~ In sep seg.
Proof.
  revert seg; induction s as [|c s IH]; simpl.
  - intros seg [<- | []]. split; [apply incl_refl | tauto].
  - intros seg. destruct (N.eqb_spec c sep) as [->|Hne].
    + intros [<- | H]; [split; [intros x [] | tauto]|].
      destruct (IH _ H) as [Hi Hn]. split; [|exact Hn].
      intros x Hx. right. now apply Hi.
    + pose proof (split_nonempty sep s) as Hs.
      destruct (split sep s) as [|w ws]; [contradiction|].
      intros [<- | H].
      * destruct (IH w (or_introl eq_refl)) as [Hi Hn]. split.
        -- intros x [<- | Hx]; [now left | right; now apply Hi].
        -- intros [Hx | Hx]; [now apply Hne | now apply Hn].
      * destruct (IH seg (or_intror H)) as [Hi Hn]. split; [|exact Hn].
        intros x Hx. right. now apply Hi.
Qed.

Lemma last_in {A} (l : list A) (d : A) : l <> [] -> In (last l d) l.
Proof.
  induction l as [|a l IH]; [tauto|]. intros _.
  destruct l as [|b l]; [now left|].
  right. apply IH. discriminate.
Qed.

Lemma remove_char_absent (a : char) (s : str) : ~ In a (remove_char a s).
Proof.
  unfold remove_char. intros H. apply filter_In in H.
  destruct H as [_ H]. now rewrite N.eqb_refl in H.
Qed.

Lemma incl_remove_char (a : char) (s : str) : incl (remove_char a s) s.
Proof. intros x H. apply filter_In in H. tauto. Qed.

(** The path component holds no tab, line feed, carriage return, hash
    or question mark. *)
Lemma urlparse_path_chars {L : Library} (url p : str) :
  urllib.urlparse_path url = Ok p ->
  forall c, In c p ->
            c <> 9%N /\ c <> LF /\ c <> CR /\ c <> chr "#" /\ c <> chr "?".
Proof.
  unfold urllib.urlparse_path, urllib.urlsplit.
  set (u0 := urllib.remove_unsafe _).
  assert (H0 : forall c, In c u0 -> c <> 9%N /\ c <> LF /\ c <> CR).
  { intros c Hc. subst u0. unfold urllib.remove_unsafe in Hc.
    repeat split; intros ->.
    - apply incl_remove_char, incl_remove_char in Hc.
      exact (remove_char_absent _ _ Hc).
    - exact (remove_char_absent _ _ Hc).
    - apply incl_remove_char in Hc. exact (remove_char_absent _ _ Hc). }
  destruct (urllib.split_scheme u0) as [sch u1] eqn:E1.
  assert (H1 : incl u1 u0).
  { unfold urllib.split_scheme in E1.
    destruct (has (chr ":") u0); [|injection E1 as _ <-; apply incl_refl].
    pose proof (incl_split1_snd (chr ":") u0) as Hs.
    destruct (split1 (chr ":") u0) as [pre post]. simpl in Hs.
    destruct pre as [|c0 pre']; [injection E1 as _ <-; apply incl_refl|].
    destruct (is_ascii_alpha c0
              && forallb (fun c => has c urllib.scheme_chars) (c0 :: pre'));
      injection E1 as _ <-; [exact Hs | apply incl_refl]. }
  destruct (if startswith (lit "//") u1 then urllib.splitnetloc2 u1
            else ([], u1)) as [nl u2] eqn:E2.
  assert (H2 : incl u2 u1).
  { destruct (startswith (lit "//") u1).
    - unfold urllib.splitnetloc2 in E2.
      pose proof (incl_break_at_snd (fun c => has c (lit "/?#")) (skipn 2 u1))
        as Hs.
      rewrite E2 in Hs. cbn [snd] in Hs.
      exact (incl_tran Hs (incl_skipn 2 u1)).
    - injection E2 as _ <-. apply incl_refl. }
  destruct (if has (chr "#") u2 then split1 (chr "#") u2 else (u2, []))
    as [u3 frag] eqn:E3.
  assert (H3 : incl u3 u2 /\ ~ In (chr "#") u3).
  { destruct (has (chr "#") u2) eqn:Hh.
    - pose proof (incl_split1_fst (chr "#") u2) as Hs.
      pose proof (split1_fst_no_sep (chr "#") u2) as Hn.
      rewrite E3 in Hs, Hn. now split.
    - injection E3 as <- _. split; [apply incl_refl|].
      intros Hin. apply has_true_iff in Hin. congruence. }
  destruct (if has (chr "?") u3 then split1 (chr "?") u3 else (u3, []))
    as [u4 qry] eqn:E4.
  assert (H4 : incl u4 u3 /\ ~ In (chr "?") u4).
  { destruct (has (chr "?") u3) eqn:Hh.
    - pose proof (incl_split1_fst (chr "?") u3) as Hs.
      pose proof (split1_fst_no_sep (chr "?") u3) as Hn.
      rewrite E4 in Hs, Hn. now split.
    - injection E4 as <- _. split; [apply incl_refl|].
      intros Hin. apply has_true_iff in Hin. congruence. }
  destruct (urllib.netloc_ok nl); [|discriminate]. cbn [urllib.scheme urllib.path].
  assert (Hp : forall q, incl q u4 ->
               forall c, In c q ->
                 c <> 9%N /\ c <> LF /\ c <> CR /\ c <> chr "#"
                 /\ c <> chr "?").
  { intros q Hq c Hc. apply Hq in Hc.
    destruct H3 as [H3 N3], H4 as [H4 N4].
    destruct (H0 c (H1 c (H2 c (H3 c (H4 c Hc))))) as [A [B C]].
    repeat split; try assumption; intros ->.
    - apply N3. now apply H4.
    - now apply N4. }
  destruct (str_in sch urllib.uses_params && has (chr ";") u4);
    intros E; injection E as <-.
  - apply Hp. apply incl_splitparams.
  - apply Hp. apply incl_refl.
Qed.

(** X4: a pack name that the run accepts is never empty and holds no
    slash, no question mark, no hash, no tab, no line feed and no
    carriage return: the query string and the fragment of the URL never
    reach the name sent to the server. *)
Theorem pack_name_characters {L : Library} (url name : str) :
  checked_pack_name url = Ok (Some name) ->
  name <> []
  /\ forall c, In c name ->
               c <> chr "/" /\ c <> chr "?" /\ c <> chr "#"
               /\ c <> 9%N /\ c <> LF /\ c <> CR.
Proof.
  unfold checked_pack_name, extract_pack_name, path_parts, last_item.
  destruct (urllib.urlparse_path url) as [p|e] eqn:Ep; [|discriminate].
  destruct (str_in MARKER (split (chr "/") p)); [|discriminate].
  pose proof (last_in (split (chr "/") p) [] (split_nonempty _ _)) as Hin.
  destruct (last (split (chr "/") p) []) as [|c0 n0] eqn:El; [discriminate|].
  intros E. injection E as <-. split; [discriminate|].
  destruct (split_segments _ _ _ Hin) as [Hi Hn].
  intros c Hc.
  destruct (urlparse_path_chars url p Ep c (Hi c Hc)) as [A [B [C [D F]]]].
  repeat split; try assumption. intros ->. exact (Hn Hc).
Qed.

(** X4 at a URL with a query string and a fragment. *)
Lemma pack_name_characters_witness :
  checked_pack_name (L := Sample.lib) Edge.URL_QUERY = Ok (Some (lit "Foo"))
  /\ lit "Foo" <> [].
Proof.
  split; [reflexivity|].
  exact (proj1 (pack_name_characters (L := Sample.lib) Edge.URL_QUERY
                  (lit "Foo") eq_refl)).
Defined.

(** ** The checks before the [try] block *)

(** X5: a URL that [urlparse] rejects is not reported as an invalid
    pack URL: with a credential and a valid format, the [ValueError]
    escapes [download_sticker_pack], nothing is printed, and the
    process ends with status 1.  A URL whose network location opens a
    bracket without closing it is such a URL, whatever the library. *)
Theorem rejected_url_escapes {L : Library} (W : World) (pack_url : str)
    (convert_tgs : bool) (static_format base_dir TOKEN : str) (e : exn) :
  getenv_token W = Some TOKEN ->
  nonempty TOKEN = true ->
  str_in (str_upper static_format) valid_formats = true ->
  path_parts pack_url = Raise e ->
  download_sticker_pack W pack_url convert_tgs static_format base_dir
  = ([], Uncaught e)
  /\ exit_status (Uncaught e) = 1%Z
  /\ path_parts Edge.URL_BRACKET = Raise ValueError.
Proof.
  intros HT Hne Hf Hp. split; [|split; reflexivity].
  unfold download_sticker_pack, checked_pack_name, extract_pack_name.
  rewrite HT. destruct TOKEN; [discriminate|]. now rewrite Hf, Hp.
Qed.

(** X5 at the sample world and the bracket URL. *)
Lemma rejected_url_escapes_witness :
  download_sticker_pack (L := Sample.lib) Sample.world_ok Edge.URL_BRACKET
    false (lit "WEBP") (lit "downloads")
  = ([], Uncaught ValueError).
Proof.
  refine (proj1 (rejected_url_escapes (L := Sample.lib) Sample.world_ok
                   Edge.URL_BRACKET false (lit "WEBP") (lit "downloads")
                   Sample.TOKEN ValueError _ _ _ _)); reflexivity.
Defined.

(** X6: [download_sticker_pack] leaves through [sys.exit] only with
    code 1 and only after printing messages, without having created
    anything; an exception escapes it only when [urlparse] raised it,
    and then nothing was printed; and once the credential, the format
    and the URL are accepted it always returns, whatever the network
    and the file system answer. *)
Theorem exits_only_before_try {L : Library} (W : World) (pack_url : str)
    (convert_tgs : bool) (static_format base_dir : str) :
  let run :=
    download_sticker_pack W pack_url convert_tgs static_format base_dir in
  (forall code,
      snd run = SysExit code ->
      code = 1%Z /\ fst run <> [] /\ forallb is_message (fst run) = true)
  /\ (forall e,
         snd run = Uncaught e -> fst run = [] /\ path_parts pack_url = Raise e)
  /\ (forall TOKEN pack_name,
         getenv_token W = Some TOKEN ->
         nonempty TOKEN = true ->
         str_in (str_upper static_format) valid_formats = true ->
         checked_pack_name pack_url = Ok (Some pack_name) ->
         snd run = Returned).
Proof.
  intros run. subst run. unfold download_sticker_pack.
  split; [|split].
  - intros code.
    destruct (getenv_token W) as [[|c0 TOKEN]|];
      try (intros E; injection E as <-; repeat split; discriminate).
    destruct (negb (str_in (str_upper static_format) valid_formats));
      [intros E; injection E as <-; repeat split; discriminate|].
    destruct (checked_pack_name pack_url) as [[name|]|e];
      try (intros E; injection E as <-; repeat split; discriminate).
    + destruct (try_except _ _). discriminate.
    + discriminate.
  - intros e.
    destruct (getenv_token W) as [[|c0 TOKEN]|]; try discriminate.
    destruct (negb (str_in (str_upper static_format) valid_formats));
      [discriminate|].
    unfold checked_pack_name, extract_pack_name.
    destruct (path_parts pack_url) as [parts|e'].
    + destruct (str_in MARKER parts); [|discriminate].
      destruct (nonempty (last_item parts [])); [|discriminate].
      destruct (try_except _ _). discriminate.
    + intros E. injection E as <-. now split.
  - intros TOKEN name HT Hne Hf Hn. rewrite HT.
    destruct TOKEN; [discriminate|]. rewrite Hf, Hn. cbn [negb].
    now destruct (try_except _ _).
Qed.

(** X6 at the sample world whose metadata request is refused: the
    call returns. *)
Lemma exits_only_before_try_witness :
  snd (download_sticker_pack (L := Sample.lib) Sample.world_no_pack Sample.URL
         false (lit "WEBP") (lit "downloads")) = Returned.
Proof.
  apply (proj2 (proj2 (exits_only_before_try (L := Sample.lib)
                         Sample.world_no_pack Sample.URL false (lit "WEBP")
                         (lit "downloads")))
           Sample.TOKEN (lit "Foo")); reflexivity.
Defined.

(** ** The static converter *)

(** X7: for a static sticker the conversion step never raises and only
    prints: its outcome is either the payload unchanged with extension
    [.webp], or non-empty converted bytes with a dot and the
    lower-cased format as extension.  When [Image.open] raises, the
    payload is kept after one diagnostic line; when the encoder returns
    no byte at all, the payload is kept without any diagnostic. *)
Theorem static_conversion_outcome {L : Library} (convert_tgs : bool)
    (static_format : str) (data : bytes) :
  (exists t ext c,
      convert_sticker convert_tgs static_format false data = (t, Ok (ext, c))
      /\ forallb is_message t = true
      /\ ((ext = lit ".webp" /\ c = data)
          \/ (ext = lit "." ++ str_lower static_format /\ c <> [] /\ t = []
              /\ str_upper static_format <> lit "WEBP")))
  /\ (forall e,
         str_upper static_format <> lit "WEBP" ->
         image_open data = Raise e ->
         convert_sticker convert_tgs static_format false data
         = ([Print (lit "Error converting WebP to " ++ static_format
                    ++ lit ": " ++ exn_message e)],
            Ok (lit ".webp", data)))
  /\ (forall img,
         str_upper static_format <> lit "WEBP" ->
         static_format <> lit "JPEG" ->
         image_open data = Ok img ->
         image_save img static_format = Ok [] ->
         convert_sticker convert_tgs static_format false data
         = ([], Ok (lit ".webp", data))).
Proof.
  assert (Hneq : forall a b, a <> b -> str_eqb a b = false).
  { intros a b H. destruct (str_eqb a b) eqn:E; [|reflexivity].
    apply str_eqb_eq in E. contradiction. }
  unfold convert_sticker, convert_webp_to_format. split; [|split].
  - destruct (str_eqb (str_upper static_format) (lit "WEBP")) eqn:Hu;
      cbn [negb].
    { eexists _, _, _. split; [reflexivity|]. split; [reflexivity|].
      left. now split. }
    assert (Hu' : str_upper static_format <> lit "WEBP").
    { intros H. apply str_eqb_eq in H. congruence. }
    destruct (image_open data) as [img|e].
    2:{ eexists _, _, _. split; [reflexivity|]. split; [reflexivity|].
        left. now split. }
    unfold lift. rewrite bind_nil_ok.
    destruct (str_eqb static_format (lit "JPEG")).
    + destruct (image_convert_rgb img) as [img'|e].
      2:{ eexists _, _, _. split; [reflexivity|]. split; [reflexivity|].
          left. now split. }
      rewrite bind_nil_ok.
      destruct (image_save img' static_format) as [[|b out]|e];
        eexists _, _, _; (split; [reflexivity|]); (split; [reflexivity|]);
        try (left; now split).
      right. repeat split; [discriminate | exact Hu'].
    + unfold ret. rewrite bind_nil_ok.
      destruct (image_save img static_format) as [[|b out]|e];
        eexists _, _, _; (split; [reflexivity|]); (split; [reflexivity|]);
        try (left; now split).
      right. repeat split; [discriminate | exact Hu'].
  - intros e Hu Ho. rewrite (Hneq _ _ Hu), Ho. reflexivity.
  - intros img Hu Hj Ho Hs.
    rewrite (Hneq _ _ Hu), Ho, (Hneq _ _ Hj). cbn [negb].
    unfold lift, ret. rewrite !bind_nil_ok, Hs. reflexivity.
Qed.

(** X7 at the sample library, whose PIL decodes nothing, and at the
    library whose encoder returns no byte for the format [PNG]. *)
Lemma static_conversion_outcome_witness :
  convert_sticker (L := Sample.lib) false (lit "PNG") false Sample.WEBP
  = ([Print (lit "Error converting WebP to PNG: cannot identify image file")],
     Ok (lit ".webp", Sample.WEBP))
  /\ convert_sticker (L := Edge.lib) false (lit "PNG") false Sample.WEBP
     = ([], Ok (lit ".webp", Sample.WEBP)).
Proof.
  split.
  - apply (proj1 (proj2 (static_conversion_outcome (L := Sample.lib) false
                           (lit "PNG") Sample.WEBP))
             (External (lit "UnidentifiedImageError")
                (lit "cannot identify image file")));
      [discriminate | reflexivity].
  - apply (proj2 (proj2 (static_conversion_outcome (L := Edge.lib) false
                           (lit "PNG") Sample.WEBP)) Sample.WEBP);
      try reflexivity; discriminate.
Defined.

(** ** The command line *)

Lemma index_of_absent (x : str) (l rest : list str) :
  str_in x l = false -> index_of x (l ++ x :: rest) = List.length l.
Proof.
  induction l as [|y l IH]; simpl.
  - now rewrite str_eqb_refl.
  - intros H. apply orb_false_iff in H. destruct H as [Hy Hl].
    rewrite Hy. now rewrite (IH Hl).
Qed.

Lemma nth_1_app (pre rest : list str) :
  2 <= List.length pre -> nth 1 (pre ++ rest) [] = nth 1 pre [].
Proof.
  intros H. destruct pre as [|a [|b pre]]; simpl in H; try lia. reflexivity.
Qed.

Lemma str_in_app (x : str) (l1 l2 : list str) :
  str_in x (l1 ++ l2) = str_in x l1 || str_in x l2.
Proof. unfold str_in. apply existsb_app. Qed.

(** X8: [main] takes the second argument as the pack URL and looks for
    the flags anywhere on the command line.  The static format is the
    argument that follows the first [--static-format], upper-cased;
    when that flag is the last argument, or is absent, the format is
    WEBP.  With fewer than two arguments nothing is attempted: the
    usage text is printed and the process exits with status 1. *)
Theorem main_arguments {L : Library} (W : World) (pre : list str) :
  2 <= List.length pre ->
  str_in (lit "--static-format") pre = false ->
  (forall f rest,
      main W (pre ++ lit "--static-format" :: f :: rest)
      = download_sticker_pack W (nth 1 pre [])
          (str_in (lit "--convert-tgs") (pre ++ f :: rest))
          (str_upper f) (lit "downloads"))
  /\ main W (pre ++ [lit "--static-format"])
     = download_sticker_pack W (nth 1 pre [])
         (str_in (lit "--convert-tgs") pre) (lit "WEBP") (lit "downloads")
  /\ main W pre
     = download_sticker_pack W (nth 1 pre [])
         (str_in (lit "--convert-tgs") pre) (lit "WEBP") (lit "downloads")
  /\ (forall argv, List.length argv < 2 -> main W argv = (usage, SysExit 1)).
Proof.
  intros Hn Hflag.
  assert (Hlen : forall rest, (List.length (pre ++ rest) <? 2) = false).
  { intros rest. apply Nat.ltb_ge. rewrite length_app. lia. }
  split; [|split; [|split]].
  - intros f rest. unfold main.
    rewrite Hlen, nth_1_app by exact Hn.
    rewrite (str_in_app (lit "--static-format")), Hflag.
    cbn [orb str_in existsb]. rewrite str_eqb_refl. cbn [orb].
    rewrite (index_of_absent _ _ _ Hflag).
    replace (nth_error (pre ++ lit "--static-format" :: f :: rest)
               (List.length pre + 1)) with (Some f).
    2:{ rewrite nth_error_app2 by lia.
        replace (List.length pre + 1 - List.length pre) with 1 by lia.
        reflexivity. }
    f_equal. rewrite !(str_in_app (lit "--convert-tgs")).
    cbn [str_in existsb]. f_equal.
  - unfold main. rewrite Hlen, nth_1_app by exact Hn.
    rewrite (str_in_app (lit "--static-format")), Hflag.
    cbn [orb str_in existsb]. rewrite str_eqb_refl. cbn [orb].
    rewrite (index_of_absent _ _ _ Hflag).
    replace (nth_error (pre ++ [lit "--static-format"])
               (List.length pre + 1)) with (@None str).
    2:{ symmetry. apply nth_error_None. rewrite length_app. simpl. lia. }
    f_equal. rewrite (str_in_app (lit "--convert-tgs")).
    cbn [str_in existsb]. fold (str_in (lit "--convert-tgs") pre).
    now rewrite orb_false_r.
  - unfold main. specialize (Hlen []). rewrite app_nil_r in Hlen.
    now rewrite Hlen, Hflag.
  - intros argv H. unfold main. apply Nat.ltb_lt in H. now rewrite H.
Qed.

(** X8 at a command line with the format given in lower case. *)
Lemma main_arguments_witness :
  main (L := Sample.lib) Sample.world_ok
    [lit "sticker_downloader.py"; Sample.URL; lit "--static-format"; lit "png"]
  = download_sticker_pack (L := Sample.lib) Sample.world_ok Sample.URL false
      (lit "PNG") (lit "downloads").
Proof.
  apply (proj1 (main_arguments (L := Sample.lib) Sample.world_ok
                  [lit "sticker_downloader.py"; Sample.URL]
                  (le_n 2) eq_refl)
           (lit "png") []).
Defined.

(** ** Exceptions in the loop *)

(** X9: any exception raised while a sticker is processed ends the
    run: after the stickers before it, the run prints the events of the
    failing body and the message of the exception, and returns; the
    stickers after it are never visited.  A descriptor without the
    [file_id] key raises such an exception, a [KeyError], before any
    request is made for it. *)
Theorem loop_exception_ends_run {L : Library} (W : World)
    (pack_url : str) (convert_tgs : bool) (static_format base_dir : str)
    (TOKEN pack_name : str) (pack_info : json) (title : str)
    (before : list json) (sticker : json) (rest : list json)
    (tb t : list event) (e : exn) :
  prepared W pack_url convert_tgs static_format base_dir TOKEN pack_name
    pack_info title (before ++ sticker :: rest) ->
  let pack_dir := pack_dir_of base_dir (sanitize_filename title) pack_name in
  iterate_stickers W TOKEN convert_tgs static_format pack_dir 0 before
  = (tb, Ok tt) ->
  process_sticker W TOKEN convert_tgs static_format pack_dir
    (List.length before) sticker = (t, Raise e) ->
  download_sticker_pack W pack_url convert_tgs static_format base_dir
  = (preamble pack_url convert_tgs static_format base_dir pack_name
       pack_info title (before ++ sticker :: rest)
     ++ (tb ++ t) ++ [Print (lit "Error: " ++ exn_message e)],
     Returned)
  /\ (forall i kvs,
         assoc (lit "file_id") kvs = None ->
         process_sticker W TOKEN convert_tgs static_format pack_dir i
           (JDict kvs)
         = ([], Raise (KeyError (lit "file_id")))).
Proof.
  intros Hp pack_dir Hb Hproc. split.
  - rewrite (run_prepared Hp). fold pack_dir.
    rewrite iterate_stickers_app, Hb, bind_pair.
    change (0 + List.length before) with (List.length before).
    now rewrite (@iterate_stickers_raise L W TOKEN convert_tgs static_format
                   pack_dir _ sticker rest t e Hproc).
  - intros i kvs Hk. unfold process_sticker, fetch_sticker, py_getitem.
    now rewrite Hk.
Qed.

Lemma edge_prepared :
  prepared (L := Sample.lib) Edge.world Sample.URL false (lit "WEBP")
    (lit "downloads") Sample.TOKEN (lit "Foo") Edge.pack_info (lit "Foo Pack")
    Edge.stickers.
Proof.
  unfold prepared. repeat split; try reflexivity.
  eexists _, _, _. repeat split; reflexivity.
Qed.

(** X9 at the sample pack whose second descriptor has no [file_id]:
    the first sticker is written, the third is not. *)
Lemma loop_exception_ends_run_witness :
  sticker_files
    (fst (download_sticker_pack (L := Sample.lib) Edge.world Sample.URL false
            (lit "WEBP") (lit "downloads")))
  = [lit "downloads/Foo Pack (Foo)/001_" ++ Sample.GRINNING ++ lit ".tgs"]
  /\ last
       (fst (download_sticker_pack (L := Sample.lib) Edge.world Sample.URL
               false (lit "WEBP") (lit "downloads"))) (Print [])
     = Print (lit "Error: 'file_id'").
Proof.
  destruct (loop_exception_ends_run (L := Sample.lib) Edge.world Sample.URL
              false (lit "WEBP") (lit "downloads") Sample.TOKEN (lit "Foo")
              Edge.pack_info (lit "Foo Pack")
              [Sample.STICKER1] Edge.STICKER_NO_ID [Sample.STICKER3]
              [WriteBytes
                 (lit "downloads/Foo Pack (Foo)/001_" ++ Sample.GRINNING
                  ++ lit ".tgs") Sample.GZ_DOC]
              [] (KeyError (lit "file_id")) edge_prepared)
    as [E _]; try reflexivity.
  rewrite E. split; reflexivity.
Defined.

(** ** What every run does to the file system *)








